(** * CodeCraft API (backend/server.py): generation orchestration

    A shallow embedding of the request pipeline of [backend/server.py]:
    the template fallback ([get_template_code]), the backend call with its
    debug-mode parsing ([generate_code_with_ai]) and the four route handlers
    ([generate_code], [debug_code], [optimize_code], [explain_code]).

    Python [str] values are modelled by [string]; a character is its code
    point, so the texts of the model are those over the code points below
    256.  The case and whitespace functions ([lower], [title], [strip])
    follow CPython there.  Two characters have a capital above 255 that a
    [string] cannot hold, U+00B5 and U+00FF: [title] leaves them as they
    are, and no statement below depends on what it does with them.

    Exceptions are explicit: pure code that can raise returns an [Exc],
    code that also logs, calls the backend or writes to the store runs in
    the monad [M] over a [State], and whatever the process does not
    decide itself (the API key, the backend's answers, the identifiers,
    the clock, the store's failures) is read from an [Env].

    The definitions come first, in source order; the facts about them
    follow, the template fallback first, then the parse of the backend's
    text, the backend call and the routes. *)

From Stdlib Require Import String Ascii List Bool Arith Lia.
Import ListNotations.
Open Scope list_scope.
Open Scope string_scope.

(* ================================================================= *)
(** ** Python strings *)

Module Str.

Definition nl : string := String (ascii_of_nat 10) EmptyString.
Definition dq : string := String (ascii_of_nat 34) EmptyString.
Definition dq3 : string := dq ++ dq ++ dq.

(** [sep.join(lines)] with a newline separator: the text of a
    triple-quoted literal, line by line. *)
Fixpoint unlines (ls : list string) : string :=
  match ls with
  | [] => EmptyString
  | [l] => l
  | l :: ls' => l ++ nl ++ unlines ls'
  end.

(** The letters with a lower-case form: A-Z, and U+00C0-U+00DE but for
    the multiplication sign U+00D7. *)
Definition is_upper (c : ascii) : bool :=
  let n := nat_of_ascii c in
  (((65 <=? n) && (n <=? 90))
   || ((192 <=? n) && (n <=? 222) && negb (n =? 215)))%nat.

(** The letters whose capital is 32 below them: a-z, and U+00E0-U+00FE
    but for the division sign U+00F7. *)
Definition is_lower (c : ascii) : bool :=
  let n := nat_of_ascii c in
  (((97 <=? n) && (n <=? 122))
   || ((224 <=? n) && (n <=? 254) && negb (n =? 247)))%nat.

(** The cased characters: the letters above, the ordinal indicators
    U+00AA and U+00BA, the micro sign U+00B5, the sharp s U+00DF and
    U+00FF. *)
Definition is_cased (c : ascii) : bool :=
  let n := nat_of_ascii c in
  (is_upper c || is_lower c
   || (n =? 170) || (n =? 181) || (n =? 186) || (n =? 223) || (n =? 255))%nat.

(** [c.isspace()]: TAB, LF, VT, FF, CR, the separators FS GS RS US, SPACE,
    NEL (U+0085) and the no-break space (U+00A0). *)
Definition isspace (c : ascii) : bool :=
  let n := nat_of_ascii c in
  (((9 <=? n) && (n <=? 13)) || ((28 <=? n) && (n <=? 32))
   || (n =? 133) || (n =? 160))%nat.

Definition lower_char (c : ascii) : ascii :=
  if is_upper c then ascii_of_nat (nat_of_ascii c + 32) else c.

Definition upper_char (c : ascii) : ascii :=
  if is_lower c then ascii_of_nat (nat_of_ascii c - 32) else c.

(** The title-case form of one character; that of the sharp s is two
    characters long. *)
Definition title_char (c : ascii) : string :=
  if (nat_of_ascii c =? 223)%nat then "Ss"
  else String (upper_char c) EmptyString.

(** [s.lower()] *)
Fixpoint lower (s : string) : string :=
  match s with
  | EmptyString => EmptyString
  | String c s' => String (lower_char c) (lower s')
  end.

(** [s.title()]: a character takes its title-case form when the character
    before it is not cased (or there is none) and its lower-case form
    otherwise. *)
Fixpoint title_from (previous_is_cased : bool) (s : string) : string :=
  match s with
  | EmptyString => EmptyString
  | String c s' =>
      (if previous_is_cased then String (lower_char c) EmptyString
       else title_char c)
      ++ title_from (is_cased c) s'
  end.

Definition title (s : string) : string := title_from false s.

(** [s.lstrip()], [s.rstrip()], [s.strip()] with no argument. *)
Fixpoint lstrip (s : string) : string :=
  match s with
  | EmptyString => EmptyString
  | String c s' => if isspace c then lstrip s' else s
  end.

Fixpoint rstrip (s : string) : string :=
  match s with
  | EmptyString => EmptyString
  | String c s' =>
      match rstrip s' with
      | EmptyString => if isspace c then EmptyString else String c EmptyString
      | r => String c r
      end
  end.

Definition strip (s : string) : string := rstrip (lstrip s).

(** [s[:n]] and [s[n:]] *)
Fixpoint take (n : nat) (s : string) : string :=
  match n, s with
  | S n', String c s' => String c (take n' s')
  | _, _ => EmptyString
  end.

Fixpoint drop (n : nat) (s : string) : string :=
  match n, s with
  | S n', String _ s' => drop n' s'
  | _, _ => s
  end.

(** [s.startswith(p)] *)
Fixpoint startswith (p s : string) : bool :=
  match p, s with
  | EmptyString, _ => true
  | String a p', String b s' => Ascii.eqb a b && startswith p' s'
  | String _ _, EmptyString => false
  end.

(** [s.find(sub)]: the lowest index where [sub] occurs, [None] for -1. *)
Fixpoint find (sub s : string) {struct s} : option nat :=
  if startswith sub s then Some 0
  else match s with
       | EmptyString => None
       | String _ s' => option_map S (find sub s')
       end.

(** [sub in s] *)
Definition contains (sub s : string) : bool :=
  match find sub s with Some _ => true | None => false end.

(** [s.split(sep)] for a non-empty [sep]: cut at the leftmost occurrence,
    go on after it.  Every cut removes at least one character, so
    [String.length s] rounds are enough. *)
Fixpoint split_from (fuel : nat) (sep s : string) : list string :=
  match fuel, find sep s with
  | S fuel', Some i =>
      take i s :: split_from fuel' sep (drop (i + String.length sep) s)
  | _, _ => [s]
  end.

(** [s.replace(old, new)] for a non-empty [old], same scan. *)
Fixpoint replace_from (fuel : nat) (old new s : string) : string :=
  match fuel, find old s with
  | S fuel', Some i =>
      take i s ++ new ++ replace_from fuel' old new (drop (i + String.length old) s)
  | _, _ => s
  end.

(** With an empty [old], [new] is put before every character and at the
    end. *)
Fixpoint intersperse (new s : string) : string :=
  match s with
  | EmptyString => new
  | String c s' => new ++ String c (intersperse new s')
  end.

Definition replace (old new s : string) : string :=
  match old with
  | EmptyString => intersperse new s
  | _ => replace_from (String.length s) old new s
  end.

End Str.

(* ================================================================= *)
(** ** Exceptions and dictionaries *)

(** The exceptions the modelled code can meet.  [BackendError] stands for
    whatever the OpenAI client raises (timeout, authentication, a payload
    it cannot read), [StoreError] for whatever the Mongo driver raises. *)
Inductive exn : Type :=
| KeyError (key : string)
| IndexError
| ValueError (msg : string)
| TypeError (msg : string)
| UnboundLocalError (name : string)
| BackendError (msg : string)
| StoreError (msg : string).

(** [str(e)] *)
Definition str_of_exn (e : exn) : string :=
  match e with
  | KeyError key => "'" ++ key ++ "'"
  | IndexError => "list index out of range"
  | ValueError msg => msg
  | TypeError msg => msg
  | UnboundLocalError name =>
      "cannot access local variable '" ++ name
        ++ "' where it is not associated with a value"
  | BackendError msg => msg
  | StoreError msg => msg
  end.

Inductive Exc (A : Type) : Type :=
| Ok (a : A)
| Raise (e : exn).

Arguments Ok {A} a.
Arguments Raise {A} e.

Definition exc_bind {A B} (m : Exc A) (k : A -> Exc B) : Exc B :=
  match m with
  | Ok a => k a
  | Raise e => Raise e
  end.

(** [s.split(sep)]; an empty separator is a [ValueError]. *)
Definition split (sep s : string) : Exc (list string) :=
  match sep with
  | EmptyString => Raise (ValueError "empty separator")
  | _ => Ok (Str.split_from (String.length s) sep s)
  end.

(** [xs[i]] *)
Definition list_getitem {A} (xs : list A) (i : nat) : Exc A :=
  match nth_error xs i with
  | Some x => Ok x
  | None => Raise IndexError
  end.

(** A dict literal with string keys, in source order. *)
Definition dict (V : Type) : Type := list (string * V).

Fixpoint lookup {V} (d : dict V) (key : string) : option V :=
  match d with
  | [] => None
  | (k, v) :: d' => if String.eqb k key then Some v else lookup d' key
  end.

(** [key in d] *)
Definition dict_in {V} (key : string) (d : dict V) : bool :=
  match lookup d key with Some _ => true | None => false end.

(** [d[key]] *)
Definition getitem {V} (d : dict V) (key : string) : Exc V :=
  match lookup d key with
  | Some v => Ok v
  | None => Raise (KeyError key)
  end.

(** [d.get(key, default)] *)
Definition dict_get {V} (d : dict V) (key : string) (default : V) : V :=
  match lookup d key with
  | Some v => v
  | None => default
  end.

(* ================================================================= *)
(** ** The template catalog (lines 126-243) *)

Import Str.

Definition template_javascript_react_component : string :=
  unlines
    [ "import React, { useState, useEffect } from 'react';";
      EmptyString;
      "const MyComponent = () => {";
      "  const [data, setData] = useState(null);";
      "  const [loading, setLoading] = useState(true);";
      EmptyString;
      "  useEffect(() => {";
      "    // Fetch data or initialize component";
      "    setLoading(false);";
      "  }, []);";
      EmptyString;
      "  if (loading) return <div>Loading...</div>;";
      EmptyString;
      "  return (";
      "    <div className=" ++ dq ++ "my-component" ++ dq ++ ">";
      "      <h1>My Component</h1>";
      "      {/* Add your content here */}";
      "    </div>";
      "  );";
      "};";
      EmptyString;
      "export default MyComponent;" ].

Definition template_javascript_api_endpoint : string :=
  unlines
    [ "const express = require('express');";
      "const router = express.Router();";
      EmptyString;
      "// GET endpoint";
      "router.get('/api/data', async (req, res) => {";
      "  try {";
      "    // Your logic here";
      "    res.json({ success: true, data: [] });";
      "  } catch (error) {";
      "    res.status(500).json({ error: error.message });";
      "  }";
      "});";
      EmptyString;
      "// POST endpoint";
      "router.post('/api/data', async (req, res) => {";
      "  try {";
      "    const { body } = req;";
      "    // Process data";
      "    res.json({ success: true, message: 'Data created' });";
      "  } catch (error) {";
      "    res.status(500).json({ error: error.message });";
      "  }";
      "});";
      EmptyString;
      "module.exports = router;" ].

Definition template_javascript_function : string :=
  unlines
    [ "function myFunction(param1, param2) {";
      "  // Add your logic here";
      "  try {";
      "    const result = param1 + param2;";
      "    return result;";
      "  } catch (error) {";
      "    console.error('Error:', error);";
      "    return null;";
      "  }";
      "}" ].

Definition template_python_function : string :=
  unlines
    [ "def my_function(param1, param2):";
      "    " ++ dq3;
      "    Description of the function";
      "    ";
      "    Args:";
      "        param1: Description of param1";
      "        param2: Description of param2";
      "    ";
      "    Returns:";
      "        Description of return value";
      "    " ++ dq3;
      "    try:";
      "        result = param1 + param2";
      "        return result";
      "    except Exception as e:";
      "        print(f" ++ dq ++ "Error: {e}" ++ dq ++ ")";
      "        return None" ].

Definition template_python_class : string :=
  unlines
    [ "class MyClass:";
      "    def __init__(self, name):";
      "        self.name = name";
      "        self.data = []";
      "    ";
      "    def add_data(self, item):";
      "        " ++ dq3 ++ "Add an item to the data list" ++ dq3;
      "        self.data.append(item)";
      "        return len(self.data)";
      "    ";
      "    def get_data(self):";
      "        " ++ dq3 ++ "Get all data" ++ dq3;
      "        return self.data";
      "    ";
      "    def __str__(self):";
      "        return f" ++ dq ++ "MyClass(name={self.name}, items={len(self.data)})" ++ dq ].

Definition template_python_api : string :=
  unlines
    [ "from fastapi import FastAPI, HTTPException";
      "from pydantic import BaseModel";
      "from typing import List, Optional";
      EmptyString;
      "app = FastAPI()";
      EmptyString;
      "class Item(BaseModel):";
      "    id: Optional[int] = None";
      "    name: str";
      "    description: Optional[str] = None";
      EmptyString;
      "@app.get(" ++ dq ++ "/api/items" ++ dq ++ ")";
      "async def get_items():";
      "    return {" ++ dq ++ "items" ++ dq ++ ": []}";
      EmptyString;
      "@app.post(" ++ dq ++ "/api/items" ++ dq ++ ")";
      "async def create_item(item: Item):";
      "    return {" ++ dq ++ "message" ++ dq ++ ": " ++ dq ++ "Item created" ++ dq ++ ", " ++ dq ++ "item" ++ dq ++ ": item}";
      EmptyString;
      "@app.get(" ++ dq ++ "/api/items/{item_id}" ++ dq ++ ")";
      "async def get_item(item_id: int):";
      "    return {" ++ dq ++ "item_id" ++ dq ++ ": item_id}" ].

Definition templates : dict (dict string) :=
  [ ("javascript",
      [ ("react_component", template_javascript_react_component);
        ("api_endpoint", template_javascript_api_endpoint);
        ("function", template_javascript_function) ]);
    ("python",
      [ ("function", template_python_function);
        ("class", template_python_class);
        ("api", template_python_api) ]) ].

(* ================================================================= *)
(** ** [get_template_code] (lines 124-263) *)

(** The dict [{"code": ..., "explanation": ...}] the generation functions
    return. *)
Record Generated : Type := mkGenerated {
  code : string;
  explanation : string
}.

(** The final [return] of the function (lines 262-263). *)
Definition generic_placeholder (prompt language : string) : Generated :=
  {| code :=
       "// " ++ title language ++ " code for: " ++ prompt ++ nl
         ++ "// Template-based generation - please provide OpenAI API key for advanced features";
     explanation :=
       "Basic template generated. For advanced AI-powered code generation, please configure OpenAI API key." |}.

Definition get_template_code (prompt language request_type : string)
  : Exc Generated :=
  let prompt_lower := lower prompt in
  if dict_in language templates then
    if contains "react" prompt_lower || contains "component" prompt_lower then
      exc_bind (getitem templates language) (fun t =>
      Ok {| code := dict_get t "react_component" "// Template not available";
            explanation := "Generated React component template" |})
    else if contains "api" prompt_lower || contains "endpoint" prompt_lower
            || contains "server" prompt_lower then
      exc_bind (getitem templates language) (fun t1 =>
      exc_bind (getitem templates language) (fun t2 =>
      Ok {| code := dict_get t1 "api"
                      (dict_get t2 "api_endpoint" "// Template not available");
            explanation := "Generated API template" |}))
    else if contains "function" prompt_lower then
      exc_bind (getitem templates language) (fun t =>
      Ok {| code := dict_get t "function" "// Template not available";
            explanation := "Generated function template" |})
    else if contains "class" prompt_lower && String.eqb language "python" then
      exc_bind (getitem templates language) (fun t =>
      Ok {| code := dict_get t "class" "# Template not available";
            explanation := "Generated class template" |})
    else Ok (generic_placeholder prompt language)
  else Ok (generic_placeholder prompt language).


(* ================================================================= *)
(** ** Models (lines 36-66) *)

Module CodeRequest.
Record t : Type := mk {
  id : string;
  prompt : string;
  language : string;
  request_type : string;
  code_input : option string;
  timestamp : nat
}.
End CodeRequest.

Module CodeResponse.
Record t : Type := mk {
  id : string;
  request_id : string;
  generated_code : string;
  explanation : string;
  language : string;
  timestamp : nat
}.
End CodeResponse.

Module CodeRequestCreate.
Record t : Type := mk {
  prompt : string;
  language : string;
  request_type : string;
  code_input : option string
}.
End CodeRequestCreate.

Module DebugRequest.
Record t : Type := mk {
  code : string;
  language : string;
  error_message : option string
}.
End DebugRequest.

Module OptimizeRequest.
Record t : Type := mk {
  code : string;
  language : string;
  optimization_type : string
}.
End OptimizeRequest.

(** The JSON body posted to [/generate-code], before the framework builds
    a [CodeRequestCreate] from it: each key is present or not. *)
Module GenerateBody.
Record t : Type := mk {
  prompt : option string;
  language : option string;
  request_type : option string;
  code_input : option string
}.
End GenerateBody.

(** Building a [CodeRequestCreate] (lines 52-56): [prompt] has no default
    and is required, the other three fields fall back to their defaults.
    The failure carries the names of the missing fields. *)
Definition CodeRequestCreate_of_body (body : GenerateBody.t)
  : list string + CodeRequestCreate.t :=
  match GenerateBody.prompt body with
  | None => inl ["prompt"]
  | Some p =>
      inr {| CodeRequestCreate.prompt := p;
             CodeRequestCreate.language :=
               match GenerateBody.language body with
               | Some l => l
               | None => "javascript"
               end;
             CodeRequestCreate.request_type :=
               match GenerateBody.request_type body with
               | Some r => r
               | None => "generate"
               end;
             CodeRequestCreate.code_input := GenerateBody.code_input body |}
  end.

(** The bodies the other three routes return. *)
Module DebugResult.
Record t : Type := mk {
  original_code : string;
  fixed_code : string;
  explanation : string;
  language : string
}.
End DebugResult.

Module OptimizeResult.
Record t : Type := mk {
  original_code : string;
  optimized_code : string;
  explanation : string;
  language : string;
  optimization_type : string
}.
End OptimizeResult.

Module ExplainResult.
Record t : Type := mk {
  code : string;
  explanation : string;
  language : string
}.
End ExplainResult.

(* ================================================================= *)
(** ** The world around one request *)

(** What [client.chat.completions.create] is called with (lines 99-107);
    the temperature is the constant 0.1. *)
Record ChatRequest : Type := mkChatRequest {
  model : string;
  system_content : string;
  user_content : string;
  max_tokens : nat
}.

(** What comes back: the text [response.choices[0].message.content], or
    an exception raised by the call or by reading that text out of the
    response.  The content is taken to be a [str] here; the module
    [NullContent] below has the pipeline of [generate_code] for a content
    that may be [None] as well. *)
Inductive Reply : Type :=
| Completion (content : string)
| Failure (e : exn).

Definition Backend : Type := ChatRequest -> Reply.

(** A document of the store with the collection it goes to. *)
Inductive Doc : Type :=
| code_requests (r : CodeRequest.t)
| code_responses (r : CodeResponse.t).

(** The process environment: the OpenAI client, [None] when no API key is
    set (line 27); the identifiers and times the process draws, by draw
    number; and the store's answer to a write, [Some e] when [insert_one]
    raises [e] given the documents already stored. *)
Record Env : Type := mkEnv {
  client : option Backend;
  uuid4 : nat -> string;
  utcnow : nat -> nat;
  insert_fault : list Doc -> Doc -> option exn
}.

(** What a request can change: the store (the documents inserted, oldest
    first), the error log, the requests handed to
    [client.chat.completions.create] (one entry per call; what the client
    library does inside a call is not modelled), and the number of
    identifiers and times drawn so far. *)
Record State : Type := mkState {
  db : list Doc;
  log : list string;
  sent : list ChatRequest;
  draws : nat
}.

(** Stateful code that may raise; a raised exception keeps the state
    reached so far. *)
Definition M (A : Type) : Type := State -> Exc A * State.

Definition ret {A} (a : A) : M A := fun st => (Ok a, st).

Definition raise {A} (e : exn) : M A := fun st => (Raise e, st).

Definition bind {A B} (m : M A) (k : A -> M B) : M B :=
  fun st =>
    match m st with
    | (Ok a, st') => k a st'
    | (Raise e, st') => (Raise e, st')
    end.

Definition lift {A} (r : Exc A) : M A := fun st => (r, st).

(** [try: m  except Exception as e: h e] *)
Definition try_except {A} (m : M A) (h : exn -> M A) : M A :=
  fun st =>
    match m st with
    | (Ok a, st') => (Ok a, st')
    | (Raise e, st') => h e st'
    end.

Notation "x <- m ;; k" := (bind m (fun x => k))
  (at level 61, m at next level, right associativity).
Notation "m ;;; k" := (bind m (fun _ => k))
  (at level 61, right associativity).
Notation "x <-? m ;; k" := (exc_bind m (fun x => k))
  (at level 61, m at next level, right associativity).

(** [logging.error(msg)] *)
Definition logging_error (msg : string) : M unit :=
  fun st =>
    (Ok tt, {| db := db st; log := (log st ++ [msg])%list;
               sent := sent st; draws := draws st |}).

(** The outcome of a route: the body with status 200, the framework's 422
    for a body it cannot validate, or [HTTPException(status_code=500)]. *)
Inductive Http (A : Type) : Type :=
| Http200 (body : A)
| Http422 (missing : list string)
| Http500 (detail : string).

Arguments Http200 {A} body.
Arguments Http422 {A} missing.
Arguments Http500 {A} detail.

(** Python truthiness of an [Optional[str]]. *)
Definition truthy (s : option string) : bool :=
  match s with
  | None => false
  | Some EmptyString => false
  | Some _ => true
  end.

(* ================================================================= *)
(** ** [generate_code_with_ai] (lines 69-122) *)

(** Lines 77-93: the [if]/[elif] chain binds [system_prompt] for the four
    known request types and leaves it unbound for any other. *)
Definition system_prompt_for (request_type language : string) : option string :=
  if String.eqb request_type "generate" then
    Some (unlines
      [ "You are an expert " ++ language ++ " developer. Generate clean, production-ready code based on the user's request. ";
        "            Provide complete, functional code with proper error handling, comments, and best practices.";
        "            Return only the code without explanations unless specifically asked." ])
  else if String.eqb request_type "debug" then
    Some (unlines
      [ "You are an expert " ++ language ++ " debugger. Analyze the provided code and fix any issues.";
        "            Explain what was wrong and provide the corrected version.";
        "            Format your response as: ISSUE: [explanation] FIXED CODE: [corrected code]" ])
  else if String.eqb request_type "explain" then
    Some (unlines
      [ "You are an expert " ++ language ++ " developer. Explain the provided code in detail.";
        "            Break down what each part does, explain the logic, and provide insights about best practices." ])
  else if String.eqb request_type "optimize" then
    Some (unlines
      [ "You are an expert " ++ language ++ " developer. Optimize the provided code for better performance, readability, and maintainability.";
        "            Explain the optimizations made and provide the improved version." ])
  else None.

(** Lines 95-97. *)
Definition user_message_for (prompt language : string)
                            (code_input : option string) : string :=
  match code_input with
  | Some c =>
      if truthy code_input then
        unlines [ prompt; EmptyString; "Code to work with:";
                  "```" ++ language; c; "```" ]
      else prompt
  | None => prompt
  end.

(** Lines 111-118: the parse of the backend's text. *)
Definition parse_ai_response (request_type ai_response : string)
  : Exc Generated :=
  if String.eqb request_type "debug" && contains "FIXED CODE:" ai_response then
    parts <-? split "FIXED CODE:" ai_response ;;
    part0 <-? list_getitem parts 0 ;;
    let explanation := strip (replace "ISSUE:" "" part0) in
    part1 <-? list_getitem parts 1 ;;
    let code := strip part1 in
    Ok {| code := code; explanation := explanation |}
  else
    Ok {| code := ai_response; explanation := "Code generated successfully" |}.

Section Server.

Variable env : Env.

(** [uuid.uuid4()] and [datetime.utcnow()] *)
Definition new_uuid : M string :=
  fun st =>
    (Ok (uuid4 env (draws st)),
     {| db := db st; log := log st; sent := sent st; draws := S (draws st) |}).

Definition now : M nat :=
  fun st =>
    (Ok (utcnow env (draws st)),
     {| db := db st; log := log st; sent := sent st; draws := S (draws st) |}).

(** [await db.<collection>.insert_one(doc)] *)
Definition insert_one (d : Doc) : M unit :=
  fun st =>
    match insert_fault env (db st) d with
    | Some e => (Raise e, st)
    | None =>
        (Ok tt, {| db := (db st ++ [d])%list; log := log st;
                   sent := sent st; draws := draws st |})
    end.

(** [client.chat.completions.create(...)] followed by
    [response.choices[0].message.content] (lines 99-109). *)
Definition chat_completions_create (backend : Backend) (rq : ChatRequest)
  : M string :=
  fun st =>
    let st' := {| db := db st; log := log st;
                  sent := (sent st ++ [rq])%list; draws := draws st |} in
    match backend rq with
    | Completion content => (Ok content, st')
    | Failure e => (Raise e, st')
    end.

Definition generate_code_with_ai (prompt language request_type : string)
                                 (code_input : option string) : M Generated :=
  try_except
    (match client env with
     | None => lift (get_template_code prompt language request_type)
     | Some backend =>
         let system_prompt := system_prompt_for request_type language in
         let user_message := user_message_for prompt language code_input in
         system_content <-
           match system_prompt with
           | Some sp => ret sp
           | None => raise (UnboundLocalError "system_prompt")
           end ;;
         ai_response <-
           chat_completions_create backend
             {| model := "gpt-4"; system_content := system_content;
                user_content := user_message; max_tokens := 2000 |} ;;
         lift (parse_ai_response request_type ai_response)
     end)
    (fun e =>
       logging_error ("AI generation error: " ++ str_of_exn e) ;;;
       lift (get_template_code prompt language request_type)).

(* ================================================================= *)
(** ** The routes (lines 270-374) *)

(** The [try]/[except] that wraps every route body: log, then answer 500. *)
Definition route {A} (log_prefix detail_prefix : string) (body : M A)
  : State -> Http A * State :=
  fun st =>
    match body st with
    | (Ok a, st') => (Http200 a, st')
    | (Raise e, st') =>
        match logging_error (log_prefix ++ str_of_exn e) st' with
        | (_, st'') => (Http500 (detail_prefix ++ str_of_exn e), st'')
        end
    end.

(** The [CodeRequest] built from [request.dict()] (line 275): [id] and
    [timestamp] come from their default factories. *)
Definition new_CodeRequest (request : CodeRequestCreate.t) : M CodeRequest.t :=
  i <- new_uuid ;;
  t <- now ;;
  ret {| CodeRequest.id := i;
         CodeRequest.prompt := CodeRequestCreate.prompt request;
         CodeRequest.language := CodeRequestCreate.language request;
         CodeRequest.request_type := CodeRequestCreate.request_type request;
         CodeRequest.code_input := CodeRequestCreate.code_input request;
         CodeRequest.timestamp := t |}.

Definition generate_code (request : CodeRequestCreate.t)
  : State -> Http CodeResponse.t * State :=
  route "Code generation error: " "Code generation failed: "
    (code_request <- new_CodeRequest request ;;
     insert_one (code_requests code_request) ;;;
     result <- generate_code_with_ai
                 (CodeRequestCreate.prompt request)
                 (CodeRequestCreate.language request)
                 (CodeRequestCreate.request_type request)
                 (CodeRequestCreate.code_input request) ;;
     i <- new_uuid ;;
     t <- now ;;
     let response :=
       {| CodeResponse.id := i;
          CodeResponse.request_id := CodeRequest.id code_request;
          CodeResponse.generated_code := code result;
          CodeResponse.explanation := explanation result;
          CodeResponse.language := CodeRequestCreate.language request;
          CodeResponse.timestamp := t |} in
     insert_one (code_responses response) ;;;
     ret response).

(** [POST /generate-code]: the framework validates the body against
    [CodeRequestCreate] and only then calls [generate_code]. *)
Definition post_generate_code (body : GenerateBody.t)
  : State -> Http CodeResponse.t * State :=
  fun st =>
    match CodeRequestCreate_of_body body with
    | inl missing => (Http422 missing, st)
    | inr request => generate_code request st
    end.

Definition debug_code (request : DebugRequest.t)
  : State -> Http DebugResult.t * State :=
  route "Debug error: " "Debug failed: "
    (let prompt := "Debug this " ++ DebugRequest.language request ++ " code" in
     let prompt :=
       if truthy (DebugRequest.error_message request) then
         match DebugRequest.error_message request with
         | Some m => prompt ++ " that gives this error: " ++ m
         | None => prompt
         end
       else prompt in
     result <- generate_code_with_ai prompt (DebugRequest.language request)
                 "debug" (Some (DebugRequest.code request)) ;;
     ret {| DebugResult.original_code := DebugRequest.code request;
            DebugResult.fixed_code := code result;
            DebugResult.explanation := explanation result;
            DebugResult.language := DebugRequest.language request |}).

Definition optimize_code (request : OptimizeRequest.t)
  : State -> Http OptimizeResult.t * State :=
  route "Optimization error: " "Optimization failed: "
    (let prompt := "Optimize this " ++ OptimizeRequest.language request
                     ++ " code for " ++ OptimizeRequest.optimization_type request in
     result <- generate_code_with_ai prompt (OptimizeRequest.language request)
                 "optimize" (Some (OptimizeRequest.code request)) ;;
     ret {| OptimizeResult.original_code := OptimizeRequest.code request;
            OptimizeResult.optimized_code := code result;
            OptimizeResult.explanation := explanation result;
            OptimizeResult.language := OptimizeRequest.language request;
            OptimizeResult.optimization_type :=
              OptimizeRequest.optimization_type request |}).

Definition explain_code (code language : string)
  : State -> Http ExplainResult.t * State :=
  route "Explanation error: " "Explanation failed: "
    (result <- generate_code_with_ai "Explain this code in detail" language
                 "explain" (Some code) ;;
     ret {| ExplainResult.code := code;
            ExplainResult.explanation := explanation result;
            ExplainResult.language := language |}).

End Server.

(* ================================================================= *)
(** ** Values named in the statements *)

(** The [CodeRequest] that [generate_code] builds in state [st]. *)
Definition code_request_of (env : Env) (request : CodeRequestCreate.t)
                           (st : State) : CodeRequest.t :=
  {| CodeRequest.id := uuid4 env (draws st);
     CodeRequest.prompt := CodeRequestCreate.prompt request;
     CodeRequest.language := CodeRequestCreate.language request;
     CodeRequest.request_type := CodeRequestCreate.request_type request;
     CodeRequest.code_input := CodeRequestCreate.code_input request;
     CodeRequest.timestamp := utcnow env (S (draws st)) |}.

(* ================================================================= *)
(** ** The specification's wording, for comparison *)

(** The keyword rules of the fallback as an ordered list: the first rule
    that matches the lower-cased prompt decides. *)
Inductive Rule : Type :=
| ReactRule
| ApiRule
| FunctionRule
| ClassRule.

Definition rule_order : list Rule := [ReactRule; ApiRule; FunctionRule; ClassRule].

Definition rule_matches (prompt_lower language : string) (r : Rule) : bool :=
  match r with
  | ReactRule =>
      contains "react" prompt_lower || contains "component" prompt_lower
  | ApiRule =>
      contains "api" prompt_lower || contains "endpoint" prompt_lower
      || contains "server" prompt_lower
  | FunctionRule => contains "function" prompt_lower
  | ClassRule => contains "class" prompt_lower && String.eqb language "python"
  end.

Definition rule_result (t : dict string) (r : Rule) : Generated :=
  match r with
  | ReactRule =>
      {| code := dict_get t "react_component" "// Template not available";
         explanation := "Generated React component template" |}
  | ApiRule =>
      {| code := dict_get t "api"
                   (dict_get t "api_endpoint" "// Template not available");
         explanation := "Generated API template" |}
  | FunctionRule =>
      {| code := dict_get t "function" "// Template not available";
         explanation := "Generated function template" |}
  | ClassRule =>
      {| code := dict_get t "class" "# Template not available";
         explanation := "Generated class template" |}
  end.

Definition select_by_priority (prompt language : string) : Generated :=
  match lookup templates language with
  | None => generic_placeholder prompt language
  | Some t =>
      match List.find (rule_matches (lower prompt) language) rule_order with
      | Some r => rule_result t r
      | None => generic_placeholder prompt language
      end
  end.

(** The debug-mode contract as written: cut the text at the first
    [FIXED CODE:]; the explanation is what stands before the cut, without
    a leading [ISSUE:], trimmed; the code is all that stands after the
    cut, trimmed. *)
Definition text_before_first (marker text : string) : string :=
  match find marker text with
  | Some i => take i text
  | None => text
  end.

Definition text_after_first (marker text : string) : string :=
  match find marker text with
  | Some i => drop (i + String.length marker) text
  | None => EmptyString
  end.

Definition without_leading (marker s : string) : string :=
  if startswith marker (lstrip s)
  then drop (String.length marker) (lstrip s)
  else s.

Definition contract_explanation (text : string) : string :=
  strip (without_leading "ISSUE:" (text_before_first "FIXED CODE:" text)).

Definition contract_code (text : string) : string :=
  strip (text_after_first "FIXED CODE:" text).

(* ================================================================= *)
(** ** Sample worlds *)

Definition sample_uuid4 (n : nat) : string :=
  "id-" ++ String (ascii_of_nat (48 + n)) EmptyString.

Definition empty_state : State :=
  {| db := []; log := []; sent := []; draws := 0 |}.

(** No API key, a store that takes every write. *)
Definition env_without_key : Env :=
  {| client := None;
     uuid4 := sample_uuid4;
     utcnow := fun n => n;
     insert_fault := fun _ _ => None |}.

(** A backend that answers every request with the same text. *)
Definition env_answering (text : string) : Env :=
  {| client := Some (fun _ => Completion text);
     uuid4 := sample_uuid4;
     utcnow := fun n => n;
     insert_fault := fun _ _ => None |}.

(** A backend whose every call times out. *)
Definition env_backend_down : Env :=
  {| client := Some (fun _ => Failure (BackendError "Request timed out."));
     uuid4 := sample_uuid4;
     utcnow := fun n => n;
     insert_fault := fun _ _ => None |}.

(** A store that refuses every write. *)
Definition env_store_down : Env :=
  {| client := None;
     uuid4 := sample_uuid4;
     utcnow := fun n => n;
     insert_fault := fun _ _ => Some (StoreError "connection refused") |}.

(** Sample requests. *)
Definition sample_request : CodeRequestCreate.t :=
  {| CodeRequestCreate.prompt := "write a function to add two numbers";
     CodeRequestCreate.language := "python";
     CodeRequestCreate.request_type := "generate";
     CodeRequestCreate.code_input := None |}.

Definition body_without_language : GenerateBody.t :=
  {| GenerateBody.prompt := Some "write a function to add two numbers";
     GenerateBody.language := None;
     GenerateBody.request_type := None;
     GenerateBody.code_input := None |}.

Definition body_without_prompt : GenerateBody.t :=
  {| GenerateBody.prompt := None;
     GenerateBody.language := Some "python";
     GenerateBody.request_type := None;
     GenerateBody.code_input := None |}.

(* ================================================================= *)
(** ** [get_supported_languages] (lines 386-407) *)

Module Language.
Record t : Type := mk {
  id : string;
  name : string;
  extensions : list string
}.
End Language.

(** The list under the key [languages] of the body returned. *)
Definition get_supported_languages : list Language.t :=
  [
    {| Language.id := "javascript"; Language.name := "JavaScript";
       Language.extensions := [".js"; ".jsx"] |};
    {| Language.id := "typescript"; Language.name := "TypeScript";
       Language.extensions := [".ts"; ".tsx"] |};
    {| Language.id := "python"; Language.name := "Python";
       Language.extensions := [".py"] |};
    {| Language.id := "react"; Language.name := "React";
       Language.extensions := [".jsx"; ".tsx"] |};
    {| Language.id := "html"; Language.name := "HTML";
       Language.extensions := [".html"] |};
    {| Language.id := "css"; Language.name := "CSS";
       Language.extensions := [".css"] |};
    {| Language.id := "sql"; Language.name := "SQL";
       Language.extensions := [".sql"] |};
    {| Language.id := "json"; Language.name := "JSON";
       Language.extensions := [".json"] |};
    {| Language.id := "bash"; Language.name := "Bash";
       Language.extensions := [".sh"] |};
    {| Language.id := "nodejs"; Language.name := "Node.js";
       Language.extensions := [".js"] |};
    {| Language.id := "php"; Language.name := "PHP";
       Language.extensions := [".php"] |};
    {| Language.id := "java"; Language.name := "Java";
       Language.extensions := [".java"] |};
    {| Language.id := "csharp"; Language.name := "C#";
       Language.extensions := [".cs"] |};
    {| Language.id := "go"; Language.name := "Go";
       Language.extensions := [".go"] |};
    {| Language.id := "rust"; Language.name := "Rust";
       Language.extensions := [".rs"] |} ].

(* ================================================================= *)
(** ** Start and stop of the process (lines 17-27 and 427-429) *)

Module Process.

(** The client objects the module creates. *)
Inductive Client : Type :=
| MotorClient (mongo_url : string)
| OpenAIClient (api_key : string).

(** The module-level names once the import is over.  [client] is bound
    twice, on line 22 and again on line 27; what is kept here is the
    binding in force at the end, [None] standing for Python's [None].
    [db] was computed from the first binding on line 23. *)
Record Globals : Type := mk {
  mongo_url : string;
  db : Client * string;
  openai_api_key : string;
  client : option Client
}.

Section ModuleLevel.

(** What the driver raises, if anything, when a client is made from a
    URL (line 22) and when a database is taken by name (line 23). *)
Variable client_fault : string -> option exn.
Variable database_fault : string -> option exn.

Definition guard (fault : option exn) : Exc unit :=
  match fault with
  | Some e => Raise e
  | None => Ok tt
  end.

(** Lines 21-27, on [os.environ] as [load_dotenv] left it. *)
Definition import_module (environ : dict string) : Exc Globals :=
  mongo_url <-? getitem environ "MONGO_URL" ;;
  _ <-? guard (client_fault mongo_url) ;;
  let client := MotorClient mongo_url in
  db_name <-? getitem environ "DB_NAME" ;;
  _ <-? guard (database_fault db_name) ;;
  let db := (client, db_name) in
  let openai_api_key := dict_get environ "OPENAI_API_KEY" "" in
  let client :=
    match openai_api_key with
    | EmptyString => None
    | _ => Some (OpenAIClient openai_api_key)
    end in
  Ok {| mongo_url := mongo_url; db := db;
        openai_api_key := openai_api_key; client := client |}.

End ModuleLevel.

(** What the shutdown handler does: [client.close()] on the object the
    name [client] is bound to, an [AttributeError] when that is [None]. *)
Inductive Shutdown : Type :=
| Closes (c : Client)
| RaisesAttributeError.

Definition shutdown_db_client (g : Globals) : Shutdown :=
  match client g with
  | Some c => Closes c
  | None => RaisesAttributeError
  end.

(** A sample environment, and drivers that accept everything. *)
Definition sample_environ : dict string :=
  [ ("MONGO_URL", "mongodb://localhost:27017");
    ("DB_NAME", "codecraft") ].

Definition no_fault (_ : string) : option exn := None.

End Process.

(** A store that takes requests and refuses responses. *)
Definition env_responses_refused : Env :=
  {| client := None;
     uuid4 := sample_uuid4;
     utcnow := fun n => n;
     insert_fault := fun _ doc =>
       match doc with
       | code_requests _ => None
       | code_responses _ => Some (StoreError "write concern error")
       end |}.

(** The prompt that [debug_code] builds (lines 308-310). *)
Definition debug_prompt_of (request : DebugRequest.t) : string :=
  let prompt := "Debug this " ++ DebugRequest.language request ++ " code" in
  if truthy (DebugRequest.error_message request) then
    match DebugRequest.error_message request with
    | Some m => prompt ++ " that gives this error: " ++ m
    | None => prompt
    end
  else prompt.

(* ================================================================= *)
(** ** A reply without content *)

(** [message.content] is an [Optional[str]].  This module has
    [generate_code_with_ai] and [generate_code] once more, for a backend
    whose reply may come without content; on a reply with content it does
    what the definitions above do ([generate_code_with_content] below). *)
Module NullContent.

Inductive Reply : Type :=
| Completion (content : option string)
| Failure (e : exn).

Definition Backend : Type := ChatRequest -> Reply.

Record Env : Type := mkEnv {
  client : option Backend;
  uuid4 : nat -> string;
  utcnow : nat -> nat;
  insert_fault : list Doc -> Doc -> option exn
}.

(** The dict that [generate_code_with_ai] returns: on line 118 its
    ["code"] is the content as it came, [None] included. *)
Record Answer : Type := mkAnswer {
  answer_code : option string;
  answer_explanation : string
}.

Definition answer (r : Exc Generated) : Exc Answer :=
  g <-? r ;;
  Ok {| answer_code := Some (code g); answer_explanation := explanation g |}.

(** [str(e)] of the error that [CodeResponse(generated_code=None, ...)]
    raises, a [ValueError] by inheritance (the wording is that of
    pydantic 1). *)
Definition none_is_not_allowed : string :=
  unlines
    [ "1 validation error for CodeResponse";
      "generated_code";
      "  none is not an allowed value (type=type_error.none.not_allowed)" ].

(** Lines 111-118 on an [Optional[str]].  On [None] the test of line 112
    raises in debug mode, where [in] is evaluated, and is false in the
    other modes, where [and] stops at its left operand. *)
Definition parse_content (request_type : string) (ai_response : option string)
  : Exc Answer :=
  match ai_response with
  | Some text => answer (parse_ai_response request_type text)
  | None =>
      if String.eqb request_type "debug" then
        Raise (TypeError "argument of type 'NoneType' is not iterable")
      else
        Ok {| answer_code := None;
              answer_explanation := "Code generated successfully" |}
  end.

Section Server.

Variable env : Env.

Definition new_uuid : M string :=
  fun st =>
    (Ok (uuid4 env (draws st)),
     {| db := db st; log := log st; sent := sent st; draws := S (draws st) |}).

Definition now : M nat :=
  fun st =>
    (Ok (utcnow env (draws st)),
     {| db := db st; log := log st; sent := sent st; draws := S (draws st) |}).

Definition insert_one (d : Doc) : M unit :=
  fun st =>
    match insert_fault env (db st) d with
    | Some e => (Raise e, st)
    | None =>
        (Ok tt, {| db := (db st ++ [d])%list; log := log st;
                   sent := sent st; draws := draws st |})
    end.

Definition chat_completions_create (backend : Backend) (rq : ChatRequest)
  : M (option string) :=
  fun st =>
    let st' := {| db := db st; log := log st;
                  sent := (sent st ++ [rq])%list; draws := draws st |} in
    match backend rq with
    | Completion content => (Ok content, st')
    | Failure e => (Raise e, st')
    end.

(** Lines 69-122. *)
Definition generate_code_with_ai (prompt language request_type : string)
                                 (code_input : option string) : M Answer :=
  try_except
    (match client env with
     | None => lift (answer (get_template_code prompt language request_type))
     | Some backend =>
         let system_prompt := system_prompt_for request_type language in
         let user_message := user_message_for prompt language code_input in
         system_content <-
           match system_prompt with
           | Some sp => ret sp
           | None => raise (UnboundLocalError "system_prompt")
           end ;;
         ai_response <-
           chat_completions_create backend
             {| model := "gpt-4"; system_content := system_content;
                user_content := user_message; max_tokens := 2000 |} ;;
         lift (parse_content request_type ai_response)
     end)
    (fun e =>
       logging_error ("AI generation error: " ++ str_of_exn e) ;;;
       lift (answer (get_template_code prompt language request_type))).

Definition new_CodeRequest (request : CodeRequestCreate.t) : M CodeRequest.t :=
  i <- new_uuid ;;
  t <- now ;;
  ret {| CodeRequest.id := i;
         CodeRequest.prompt := CodeRequestCreate.prompt request;
         CodeRequest.language := CodeRequestCreate.language request;
         CodeRequest.request_type := CodeRequestCreate.request_type request;
         CodeRequest.code_input := CodeRequestCreate.code_input request;
         CodeRequest.timestamp := t |}.

(** [CodeResponse(...)] (lines 287-293): the timestamp comes from its
    default factory, and a [generated_code] that is not a [str] is a
    validation error. *)
Definition new_CodeResponse (i request_id : string) (result : Answer)
                            (language : string) : M CodeResponse.t :=
  t <- now ;;
  match answer_code result with
  | Some generated_code =>
      ret {| CodeResponse.id := i;
             CodeResponse.request_id := request_id;
             CodeResponse.generated_code := generated_code;
             CodeResponse.explanation := answer_explanation result;
             CodeResponse.language := language;
             CodeResponse.timestamp := t |}
  | None => raise (ValueError none_is_not_allowed)
  end.

(** Lines 270-302. *)
Definition generate_code (request : CodeRequestCreate.t)
  : State -> Http CodeResponse.t * State :=
  route "Code generation error: " "Code generation failed: "
    (code_request <- new_CodeRequest request ;;
     insert_one (code_requests code_request) ;;;
     result <- generate_code_with_ai
                 (CodeRequestCreate.prompt request)
                 (CodeRequestCreate.language request)
                 (CodeRequestCreate.request_type request)
                 (CodeRequestCreate.code_input request) ;;
     i <- new_uuid ;;
     response <- new_CodeResponse i (CodeRequest.id code_request) result
                   (CodeRequestCreate.language request) ;;
     insert_one (code_responses response) ;;;
     ret response).

End Server.

(** The [CodeRequest] that [generate_code] builds in state [st]. *)
Definition code_request_of (env : Env) (request : CodeRequestCreate.t)
                           (st : State) : CodeRequest.t :=
  {| CodeRequest.id := uuid4 env (draws st);
     CodeRequest.prompt := CodeRequestCreate.prompt request;
     CodeRequest.language := CodeRequestCreate.language request;
     CodeRequest.request_type := CodeRequestCreate.request_type request;
     CodeRequest.code_input := CodeRequestCreate.code_input request;
     CodeRequest.timestamp := utcnow env (S (draws st)) |}.

(** A backend that answers every request without content, before a store
    that takes every write. *)
Definition env_without_content : Env :=
  {| client := Some (fun _ => Completion None);
     uuid4 := sample_uuid4;
     utcnow := fun n => n;
     insert_fault := fun _ _ => None |}.

End NullContent.

(** An environment of the first kind, whose replies all have a content,
    as one of the second kind. *)
Definition with_content (env : Env) : NullContent.Env :=
  {| NullContent.client :=
       match client env with
       | Some backend =>
           Some (fun rq =>
                   match backend rq with
                   | Completion content =>
                       NullContent.Completion (Some content)
                   | Failure e => NullContent.Failure e
                   end)
       | None => None
       end;
     NullContent.uuid4 := uuid4 env;
     NullContent.utcnow := utcnow env;
     NullContent.insert_fault := insert_fault env |}.

(* ================================================================= *)
(** * Facts about the string functions *)

Lemma startswith_length p : forall s,
  startswith p s = true -> String.length p <= String.length s.
Proof.
  induction p as [|a p IH]; intros [|b s]; simpl; intros H; try lia; try discriminate.
  apply andb_true_iff in H as [_ H]. apply IH in H. lia.
Qed.

Lemma startswith_app p : forall s, startswith p (p ++ s) = true.
Proof.
  induction p as [|a p IH]; intros s; simpl.
  - reflexivity.
  - now rewrite Ascii.eqb_refl, IH.
Qed.

Lemma append_assoc (a b c : string) : (a ++ b) ++ c = a ++ b ++ c.
Proof.
  induction a as [|x a IH]; simpl; [reflexivity | now rewrite IH].
Qed.

Lemma find_unfold sub s :
  find sub s =
  if startswith sub s then Some 0
  else match s with
       | EmptyString => None
       | String _ s' => option_map S (find sub s')
       end.
Proof. destruct s; reflexivity. Qed.

Lemma find_bound sub : forall s i,
  find sub s = Some i -> i + String.length sub <= String.length s.
Proof.
  induction s as [|c s IH]; intros i; rewrite find_unfold.
  - destruct (startswith sub "") eqn:E; intros H; inversion H; subst.
    apply startswith_length in E. simpl in *. lia.
  - destruct (startswith sub (String c s)) eqn:E; intros H.
    + inversion H; subst. apply startswith_length in E. simpl in *. lia.
    + destruct (find sub s) as [j|]; simpl in H; inversion H; subst.
      specialize (IH j eq_refl). simpl. lia.
Qed.

Lemma length_drop : forall n s,
  String.length (drop n s) = String.length s - n.
Proof.
  induction n as [|n IH]; intros [|c s]; simpl; try lia. apply IH.
Qed.

Lemma contains_app x b : forall a, contains x (a ++ x ++ b) = true.
Proof.
  unfold contains. induction a as [|c a IH]; simpl append; rewrite find_unfold.
  - now rewrite startswith_app.
  - destruct (startswith x (String c (a ++ x ++ b))); [reflexivity|].
    destruct (find x (a ++ x ++ b)); [reflexivity | discriminate].
Qed.

Lemma startswith_lower p : forall s,
  startswith p s = true -> startswith (lower p) (lower s) = true.
Proof.
  induction p as [|a p IH]; intros [|b s]; simpl; intros H; try easy.
  apply andb_true_iff in H as [Hab H].
  apply Ascii.eqb_eq in Hab; subst b.
  now rewrite Ascii.eqb_refl, IH.
Qed.

(** A keyword found in the prompt is found in the lower-cased prompt, in
    lower case. *)
Lemma contains_lower k : forall s,
  contains k s = true -> contains (lower k) (lower s) = true.
Proof.
  unfold contains. induction s as [|c s IH]; rewrite find_unfold.
  - destruct (startswith k "") eqn:E; [|discriminate]. intros _.
    apply startswith_lower in E. rewrite find_unfold, E. reflexivity.
  - destruct (startswith k (String c s)) eqn:E.
    + intros _. apply startswith_lower in E. rewrite find_unfold, E. reflexivity.
    + intros H. rewrite (find_unfold _ (lower (String c s))).
      destruct (startswith (lower k) (lower (String c s))); [reflexivity|].
      simpl. destruct (find k s); [|discriminate].
      specialize (IH eq_refl). destruct (find (lower k) (lower s)); [reflexivity|discriminate].
Qed.

(* ================================================================= *)
(** * The template fallback *)

(** The catalog has exactly two languages. *)
Lemma lookup_templates language :
  lookup templates language =
  if String.eqb "javascript" language then
    Some [ ("react_component", template_javascript_react_component);
           ("api_endpoint", template_javascript_api_endpoint);
           ("function", template_javascript_function) ]
  else if String.eqb "python" language then
    Some [ ("function", template_python_function);
           ("class", template_python_class);
           ("api", template_python_api) ]
  else None.
Proof. reflexivity. Qed.

Ltac split_ifs :=
  repeat match goal with
         | |- context [if ?b then _ else _] => destruct b eqn:?
         end.

(** C3. [get_template_code] is a function of its three arguments alone
    and never raises: for every prompt, language and request type it
    returns a result, and both the code and the explanation of that
    result are non-empty. *)
Theorem get_template_code_total (prompt language request_type : string) :
  exists r,
    get_template_code prompt language request_type = Ok r
    /\ code r <> "" /\ explanation r <> "".
Proof.
  unfold get_template_code, dict_in, getitem.
  rewrite lookup_templates.
  destruct (String.eqb "javascript" language);
    [|destruct (String.eqb "python" language)];
    split_ifs; eexists; (split; [reflexivity|]);
    split; vm_compute; discriminate.
Qed.

(** The nested conditionals of [get_template_code] are the ordered rule
    list: react/component, then api/endpoint/server, then function, then
    class (Python only), and the placeholder when none matches or the
    language has no catalog. *)
Lemma get_template_code_by_priority (prompt language request_type : string) :
  get_template_code prompt language request_type =
  Ok (select_by_priority prompt language).
Proof.
  unfold get_template_code, select_by_priority, dict_in, getitem.
  destruct (lookup templates language) as [t|]; [|reflexivity].
  unfold rule_order, rule_matches; cbn [List.find exc_bind].
  split_ifs; reflexivity.
Qed.

(** C4. For a language of the catalog the keyword rules are tried on the
    lower-cased prompt in a fixed order: react or component first, then
    api, endpoint or server, then function, then class (for python), and
    the placeholder when none applies; a rule decides only if every rule
    before it has failed.  So a prompt that mentions both react and
    function gets the result of the React rule (the language's
    [react_component] entry, or the rule's default text), never that of
    the function rule, which the same prompt without react or component
    would get if it names no api, endpoint or server. *)
Theorem keyword_rules_are_tried_in_order
    (prompt language request_type : string) (t : dict string) :
  lookup templates language = Some t ->
  let p := lower prompt in
  let has_react := contains "react" p || contains "component" p in
  let has_api :=
    contains "api" p || contains "endpoint" p || contains "server" p in
  let has_function := contains "function" p in
  let has_class := contains "class" p && String.eqb language "python" in
  let react_result :=
    {| code := dict_get t "react_component" "// Template not available";
       explanation := "Generated React component template" |} in
  let function_result :=
    {| code := dict_get t "function" "// Template not available";
       explanation := "Generated function template" |} in
  (has_react = true ->
   get_template_code prompt language request_type = Ok react_result)
  /\ (has_react = false -> has_api = true ->
      get_template_code prompt language request_type
      = Ok {| code := dict_get t "api"
                        (dict_get t "api_endpoint" "// Template not available");
              explanation := "Generated API template" |})
  /\ (has_react = false -> has_api = false -> has_function = true ->
      get_template_code prompt language request_type = Ok function_result)
  /\ (has_react = false -> has_api = false -> has_function = false ->
      has_class = true ->
      get_template_code prompt language request_type
      = Ok {| code := dict_get t "class" "# Template not available";
              explanation := "Generated class template" |})
  /\ (has_react = false -> has_api = false -> has_function = false ->
      has_class = false ->
      get_template_code prompt language request_type
      = Ok (generic_placeholder prompt language))
  /\ (contains "react" p = true -> contains "function" p = true ->
      get_template_code prompt language request_type = Ok react_result
      /\ get_template_code prompt language request_type
         <> Ok function_result).
Proof.
  intros Ht p has_react has_api has_function has_class react_result
    function_result.
  assert (G : get_template_code prompt language request_type
              = if has_react then Ok react_result
                else if has_api then
                  Ok {| code := dict_get t "api"
                                  (dict_get t "api_endpoint"
                                     "// Template not available");
                        explanation := "Generated API template" |}
                else if has_function then Ok function_result
                else if has_class then
                  Ok {| code := dict_get t "class" "# Template not available";
                        explanation := "Generated class template" |}
                else Ok (generic_placeholder prompt language)).
  { unfold get_template_code, dict_in, getitem. rewrite Ht.
    fold p. fold has_react. fold has_api. fold has_function. fold has_class.
    cbn [exc_bind].
    destruct has_react, has_api, has_function, has_class; reflexivity. }
  rewrite G.
  split; [|split; [|split; [|split; [|split]]]].
  - intros H1. now rewrite H1.
  - intros H1 H2. now rewrite H1, H2.
  - intros H1 H2 H3. now rewrite H1, H2, H3.
  - intros H1 H2 H3 H4. now rewrite H1, H2, H3, H4.
  - intros H1 H2 H3 H4. now rewrite H1, H2, H3, H4.
  - intros R _.
    assert (H1 : has_react = true) by (subst has_react; now rewrite R).
    rewrite H1. split; [reflexivity|].
    intros C.
    apply (f_equal (fun r => match r with
                             | Ok g => explanation g
                             | Raise _ => EmptyString
                             end)) in C.
    discriminate C.
Qed.

Lemma keyword_rules_are_tried_in_order_witness :
  get_template_code "Write a React function" "javascript" "generate"
  = Ok {| code := template_javascript_react_component;
          explanation := "Generated React component template" |}
  /\ get_template_code "Write a function" "javascript" "generate"
     = Ok {| code := template_javascript_function;
             explanation := "Generated function template" |}
  /\ get_template_code "Write a server function" "python" "generate"
     = Ok {| code := template_python_api;
             explanation := "Generated API template" |}.
Proof.
  split; [|split].
  - apply (keyword_rules_are_tried_in_order "Write a React function"
             "javascript" "generate"
             [ ("react_component", template_javascript_react_component);
               ("api_endpoint", template_javascript_api_endpoint);
               ("function", template_javascript_function) ] eq_refl);
      reflexivity.
  - apply (keyword_rules_are_tried_in_order "Write a function"
             "javascript" "generate"
             [ ("react_component", template_javascript_react_component);
               ("api_endpoint", template_javascript_api_endpoint);
               ("function", template_javascript_function) ] eq_refl);
      reflexivity.
  - apply (keyword_rules_are_tried_in_order "Write a server function"
             "python" "generate"
             [ ("function", template_python_function);
               ("class", template_python_class);
               ("api", template_python_api) ] eq_refl);
      reflexivity.
Defined.

(** C7, as amended.  The React-component template is returned for the
    language javascript, when the prompt mentions react or component, and
    for no other language.  A language without a catalog entry gets the
    placeholder whatever the prompt says; the placeholder's code holds the
    prompt as given and the language name as [language.title()] writes
    it. *)
Theorem react_template_and_uncatalogued_language
    (prompt language request_type : string) :
  (language = "javascript" ->
   contains "react" (lower prompt) || contains "component" (lower prompt)
     = true ->
   get_template_code prompt language request_type
   = Ok {| code := template_javascript_react_component;
           explanation := "Generated React component template" |})
  /\ (forall r,
        get_template_code prompt language request_type = Ok r ->
        code r = template_javascript_react_component ->
        language = "javascript"
        /\ contains "react" (lower prompt)
             || contains "component" (lower prompt) = true)
  /\ (dict_in language templates = false ->
      get_template_code prompt language request_type
      = Ok (generic_placeholder prompt language))
  /\ (contains (title language) (code (generic_placeholder prompt language))
        = true
      /\ contains prompt (code (generic_placeholder prompt language)) = true).
Proof.
  split; [|split; [|split; [|split]]].
  - intros -> H. unfold get_template_code. cbn [dict_in lookup templates String.eqb Ascii.eqb Bool.eqb].
    now rewrite H.
  - intros r. unfold get_template_code, dict_in, getitem.
    rewrite lookup_templates.
    destruct (String.eqb_spec "javascript" language) as [<-|_];
      [|destruct (String.eqb "python" language)];
      split_ifs; cbn [exc_bind];
      intros E; injection E as <-; intros C;
      try (vm_compute in C; discriminate C);
      now split.
  - unfold get_template_code. now intros ->.
  - apply (contains_app (title language) _ "// ").
  - unfold generic_placeholder; cbn [code].
    rewrite <- (append_assoc (title language)), <- (append_assoc "// ").
    apply contains_app.
Qed.

Lemma react_template_and_uncatalogued_language_witness :
  get_template_code "create a class" "rust" "generate"
  = Ok {| code :=
            "// Rust code for: create a class" ++ nl
            ++ "// Template-based generation - please provide OpenAI API key for advanced features";
          explanation :=
            "Basic template generated. For advanced AI-powered code generation, please configure OpenAI API key." |}
  /\ get_template_code "a React component" "typescript" "generate"
     = Ok (generic_placeholder "a React component" "typescript").
Proof.
  split.
  - apply (react_template_and_uncatalogued_language "create a class" "rust"
             "generate").
    reflexivity.
  - apply (react_template_and_uncatalogued_language "a React component"
             "typescript" "generate").
    reflexivity.
Defined.

(** C7, as stated, fails: the placeholder for the language rust reads
    Rust, and the name as it was given occurs nowhere in the code. *)
Lemma placeholder_lacks_language_name_as_given :
  get_template_code "create a class" "rust" "generate"
  = Ok (generic_placeholder "create a class" "rust")
  /\ code (generic_placeholder "create a class" "rust")
     = "// Rust code for: create a class" ++ nl
       ++ "// Template-based generation - please provide OpenAI API key for advanced features"
  /\ contains "rust" (code (generic_placeholder "create a class" "rust"))
     = false.
Proof. repeat split. Qed.
(* ================================================================= *)
(** * The parse of the backend's text *)

Lemma split_from_hd sep : forall fuel s,
  sep <> EmptyString ->
  String.length s <= fuel ->
  exists tl, split_from fuel sep s = text_before_first sep s :: tl.
Proof.
  intros fuel s Hsep Hlen. unfold text_before_first.
  destruct (find sep s) as [j|] eqn:F.
  - apply find_bound in F as B.
    destruct sep as [|a sep]; [contradiction|]. simpl in B.
    destruct fuel as [|fuel]; [lia|].
    simpl. rewrite F. now eexists.
  - destruct fuel; simpl; rewrite ?F; now eexists.
Qed.

(** What the debug branch computes when the marker is there: the text
    before the first marker loses every [ISSUE:] and is trimmed; the code
    is the text between the first marker and the next one (or the end),
    trimmed. *)
Lemma parse_debug_marker_present text i :
  find "FIXED CODE:" text = Some i ->
  parse_ai_response "debug" text
  = Ok {| code := strip (text_before_first "FIXED CODE:" (drop (i + 11) text));
          explanation := strip (replace "ISSUE:" "" (take i text)) |}.
Proof.
  intros F. unfold parse_ai_response, contains. rewrite F.
  cbn [String.eqb Ascii.eqb Bool.eqb andb]. unfold split.
  apply find_bound in F as B. cbn [String.length] in B.
  destruct (String.length text) as [|fuel] eqn:L; [lia|].
  cbn [split_from exc_bind]. rewrite F.
  cbn [exc_bind list_getitem nth_error String.length].
  destruct (split_from_hd "FIXED CODE:" fuel (drop (i + 11) text))
    as (tl & ->); [discriminate | rewrite length_drop; lia |].
  reflexivity.
Qed.

(** The parse returns for every request type and every text. *)
Lemma parse_ai_response_returns request_type text :
  exists r, parse_ai_response request_type text = Ok r.
Proof.
  destruct (String.eqb request_type "debug" && contains "FIXED CODE:" text)
    eqn:C.
  - apply andb_true_iff in C as [D C].
    apply String.eqb_eq in D; subst request_type.
    unfold contains in C.
    destruct (find "FIXED CODE:" text) as [i|] eqn:F; [|discriminate].
    rewrite (parse_debug_marker_present _ _ F). now eexists.
  - unfold parse_ai_response. rewrite C. now eexists.
Qed.

(** Without the marker the whole text is the code. *)
Lemma parse_debug_marker_absent text :
  contains "FIXED CODE:" text = false ->
  parse_ai_response "debug" text
  = Ok {| code := text; explanation := "Code generated successfully" |}.
Proof.
  intros C. unfold parse_ai_response. now rewrite C.
Qed.

(** With the marker exactly once, the code is all the text after it. *)
Lemma parse_debug_marker_once text i :
  find "FIXED CODE:" text = Some i ->
  contains "FIXED CODE:" (drop (i + 11) text) = false ->
  exists r,
    parse_ai_response "debug" text = Ok r
    /\ code r = contract_code text.
Proof.
  intros F C. rewrite (parse_debug_marker_present _ _ F). eexists.
  split; [reflexivity|].
  unfold contract_code, text_after_first, text_before_first, contains in *.
  rewrite F. cbn [code String.length].
  now destruct (find "FIXED CODE:" (drop (i + 11) text)).
Qed.

(** The example of the specification. *)
Example parse_debug_example :
  parse_ai_response "debug" "ISSUE: foo FIXED CODE: bar"
  = Ok {| code := "bar"; explanation := "foo" |}.
Proof. reflexivity. Qed.

(** C1. The debug parse departs from the contract on a text in which the
    marker comes twice: for a fix whose own code prints the marker, the
    code returned stops at the second marker, where the contract has all
    the text after the first one.  The route hands that cut code to the
    caller.  (The explanation likewise loses every [ISSUE:], not only a
    leading one.) *)
Theorem debug_parse_cuts_code_at_second_marker :
  parse_ai_response "debug"
    "ISSUE: the label is misspelled FIXED CODE: print('FIXED CODE: done')"
  = Ok {| code := "print('"; explanation := "the label is misspelled" |}
  /\ contract_code
       "ISSUE: the label is misspelled FIXED CODE: print('FIXED CODE: done')"
     = "print('FIXED CODE: done')"
  /\ fst (debug_code
            (env_answering
               "ISSUE: the label is misspelled FIXED CODE: print('FIXED CODE: done')")
            {| DebugRequest.code := "print('FIXED CODE done')";
               DebugRequest.language := "python";
               DebugRequest.error_message := None |}
            empty_state)
     = Http200 {| DebugResult.original_code := "print('FIXED CODE done')";
                  DebugResult.fixed_code := "print('";
                  DebugResult.explanation := "the label is misspelled";
                  DebugResult.language := "python" |}
  /\ parse_ai_response "debug" "see ISSUE: x FIXED CODE: y"
     = Ok {| code := "y"; explanation := "see  x" |}
  /\ contract_explanation "see ISSUE: x FIXED CODE: y" = "see ISSUE: x".
Proof.
  repeat split; vm_compute; reflexivity.
Qed.
(* ================================================================= *)
(** * The backend call *)

(** [generate_code_with_ai] always returns a result, and touches neither
    the store nor the supply of identifiers. *)
Lemma generate_code_with_ai_returns env prompt language request_type code_input st :
  exists result st',
    generate_code_with_ai env prompt language request_type code_input st
      = (Ok result, st')
    /\ db st' = db st /\ draws st' = draws st.
Proof.
  pose proof (get_template_code_by_priority prompt language request_type)
    as Hr.
  unfold generate_code_with_ai, try_except, bind, lift, ret, raise,
    chat_completions_create, logging_error.
  destruct (client env) as [backend|].
  - destruct (system_prompt_for request_type language) as [sp|].
    + destruct (backend _) as [content|e].
      * destruct (parse_ai_response request_type content) as [g|e'].
        -- now eexists _, _.
        -- rewrite Hr. now eexists _, _.
      * rewrite Hr. now eexists _, _.
    + rewrite Hr. now eexists _, _.
  - rewrite Hr. now eexists _, _.
Qed.

(** Without a client the function returns the template result and does
    nothing else. *)
Lemma generate_code_with_ai_offline env prompt language request_type code_input st :
  client env = None ->
  generate_code_with_ai env prompt language request_type code_input st
    = (get_template_code prompt language request_type, st).
Proof.
  intros Hc.
  unfold generate_code_with_ai, try_except, lift.
  now rewrite Hc, get_template_code_by_priority.
Qed.

(** C5. With no API key the client is [None], and [generate_code_with_ai]
    returns what [get_template_code] returns for the same prompt, language
    and request type; the state is left as it was, so nothing is sent to
    the backend.  For the prompt "write a function to add two numbers" and
    the language python this is the Python function template. *)
Theorem no_credential_returns_template
    (env : Env) (prompt language request_type : string)
    (code_input : option string) (st : State) :
  client env = None ->
  generate_code_with_ai env prompt language request_type code_input st
    = (get_template_code prompt language request_type, st)
  /\ generate_code_with_ai env "write a function to add two numbers" "python"
       request_type code_input st
     = (Ok {| code := template_python_function;
              explanation := "Generated function template" |}, st).
Proof.
  intros Hc.
  split; [now apply generate_code_with_ai_offline|].
  now rewrite generate_code_with_ai_offline.
Qed.

Lemma no_credential_returns_template_witness :
  generate_code_with_ai env_without_key "write a function to add two numbers"
    "python" "generate" None empty_state
  = (Ok {| code := template_python_function;
           explanation := "Generated function template" |}, empty_state).
Proof.
  apply (no_credential_returns_template env_without_key
           "write a function to add two numbers" "python" "generate" None
           empty_state).
  reflexivity.
Defined.

(** C9. [get_template_code] never looks at [request_type]: the four
    request types (and any other string) get the same result for the same
    prompt and language.  A debug request served by the fallback therefore
    gets the template that the keywords of its prompt select, exactly as a
    generate request with that prompt would. *)
Theorem get_template_code_ignores_request_type
    (prompt language request_type1 request_type2 : string) :
  get_template_code prompt language request_type1
    = get_template_code prompt language request_type2
  /\ forall env code_input st,
       client env = None ->
       generate_code_with_ai env prompt language "debug" code_input st
       = (get_template_code prompt language "generate", st).
Proof.
  split; [reflexivity|].
  intros env code_input st Hc.
  now rewrite generate_code_with_ai_offline.
Qed.

Lemma get_template_code_ignores_request_type_witness :
  generate_code_with_ai env_without_key "Debug this python code" "python"
    "debug" (Some "print(1") empty_state
  = (get_template_code "Debug this python code" "python" "generate",
     empty_state).
Proof.
  apply (get_template_code_ignores_request_type "Debug this python code"
           "python" "optimize" "explain").
  reflexivity.
Defined.
(* ================================================================= *)
(** * The routes *)

(** The three ways [generate_code] can end: the request write raises; the
    request is stored and the response write raises; both are stored. *)
Lemma generate_code_cases env request st out st' :
  generate_code env request st = (out, st') ->
  let code_request := code_request_of env request st in
  (exists e,
      insert_fault env (db st) (code_requests code_request) = Some e
      /\ out = Http500 ("Code generation failed: " ++ str_of_exn e)
      /\ db st' = db st)
  \/ (exists response,
        CodeResponse.request_id response = CodeRequest.id code_request
        /\ ((exists e,
               insert_fault env (db st ++ [code_requests code_request])%list
                 (code_responses response) = Some e
               /\ out = Http500 ("Code generation failed: " ++ str_of_exn e)
               /\ db st' = (db st ++ [code_requests code_request])%list)
            \/ (out = Http200 response
                /\ db st' = (db st ++ [code_requests code_request;
                                        code_responses response])%list))).
Proof.
  unfold generate_code, route, new_CodeRequest, code_request_of.
  unfold bind, new_uuid, now, insert_one, ret, logging_error.
  cbn [db log sent draws].
  match goal with
  | |- context [insert_fault env (db st) ?d] =>
      destruct (insert_fault env (db st) d) as [e|] eqn:F1
  end.
  - intros H; inversion H; subst; clear H. left. now exists e.
  - match goal with
    | |- context [generate_code_with_ai env ?p ?l ?r ?c ?s] =>
        destruct (generate_code_with_ai_returns env p l r c s)
          as (result & st3 & E & Hdb & Hdr)
    end.
    rewrite E. cbn [db log sent draws] in *.
    match goal with
    | |- context [insert_fault env (db st3) (code_responses ?r)] =>
        set (response := r)
    end.
    intros H. right. exists response. split; [reflexivity|].
    rewrite Hdb in H.
    destruct (insert_fault env _ (code_responses response)) as [e|] eqn:F2;
      inversion H; subst; clear H; cbn [db].
    + left. exists e. auto.
    + right. split; [reflexivity|]. now rewrite <- app_assoc.
Qed.

(** C6. Every run of [generate_code] that answers 200 has appended to the
    store exactly the [CodeRequest] it built and then the [CodeResponse]
    it returns, in that order, and the response's [request_id] is the
    request's [id].  A run that answers 500 has appended nothing or the
    request alone: a response is never stored without its request. *)
Theorem generate_code_persists_request_then_response
    (env : Env) (request : CodeRequestCreate.t) (st st' : State)
    (out : Http CodeResponse.t) :
  generate_code env request st = (out, st') ->
  let code_request := code_request_of env request st in
  (exists response,
      out = Http200 response
      /\ db st' = (db st ++ [code_requests code_request;
                              code_responses response])%list
      /\ CodeResponse.request_id response = CodeRequest.id code_request)
  \/ (exists detail,
        out = Http500 detail
        /\ (db st' = db st
            \/ db st' = (db st ++ [code_requests code_request])%list)).
Proof.
  intros H. apply generate_code_cases in H. cbv zeta in *.
  destruct H as [(e & _ & Hout & Hdb)
                | (response & Hid & [(e & _ & Hout & Hdb) | (Hout & Hdb)])].
  - right. eexists. split; [exact Hout|]. now left.
  - right. eexists. split; [exact Hout|]. now right.
  - left. exists response. split; [exact Hout|]. split; [exact Hdb | exact Hid].
Qed.

Lemma generate_code_persists_request_then_response_witness :
  exists response,
    db (snd (generate_code env_without_key sample_request empty_state))
      = [code_requests
           (code_request_of env_without_key sample_request empty_state);
         code_responses response]
    /\ CodeResponse.request_id response = "id-0".
Proof.
  destruct (generate_code env_without_key sample_request empty_state)
    as [out st'] eqn:E.
  destruct (generate_code_persists_request_then_response
              env_without_key sample_request empty_state st' out E)
    as [(response & _ & Hdb & Hid) | (detail & Hout & _)].
  - exists response. split; [exact Hdb | exact Hid].
  - exfalso. subst out. vm_compute in E. discriminate E.
Defined.

(** A store that is down is what the caller does see. *)
Example generate_code_store_down :
  fst (generate_code env_store_down sample_request empty_state)
  = Http500 "Code generation failed: connection refused".
Proof. reflexivity. Qed.

(** A request type outside the four leaves [system_prompt] unbound; the
    resulting exception is absorbed like any other, before anything is
    sent to the backend. *)
Lemma unknown_request_type_falls_back env backend prompt language request_type
      code_input st :
  client env = Some backend ->
  system_prompt_for request_type language = None ->
  generate_code_with_ai env prompt language request_type code_input st
  = (get_template_code prompt language request_type,
     {| db := db st;
        log := (log st
                ++ [("AI generation error: "
                     ++ str_of_exn (UnboundLocalError "system_prompt"))%string])%list;
        sent := sent st;
        draws := draws st |}).
Proof.
  intros Hc Hsp.
  unfold generate_code_with_ai, try_except.
  rewrite Hc, Hsp.
  unfold bind, raise, lift, logging_error. cbn [db log sent draws].
  now rewrite get_template_code_by_priority.
Qed.

(** C10. [explain_code] always answers 200 with the submitted code in the
    [code] field.  Whenever the backend answers with a text, whatever the
    text, the explanation returned is the constant "Code generated
    successfully": the text went to the [code] field of the intermediate
    result, which the route does not read. *)
Theorem explain_code_returns_submitted_code
    (env : Env) (submitted language : string) (st : State) :
  (exists explanation st',
      explain_code env submitted language st
      = (Http200 {| ExplainResult.code := submitted;
                    ExplainResult.explanation := explanation;
                    ExplainResult.language := language |}, st'))
  /\ (forall backend sp text,
        client env = Some backend ->
        system_prompt_for "explain" language = Some sp ->
        let rq := {| model := "gpt-4"; system_content := sp;
                     user_content :=
                       user_message_for "Explain this code in detail" language
                         (Some submitted);
                     max_tokens := 2000 |} in
        let st' := {| db := db st; log := log st;
                      sent := (sent st ++ [rq])%list; draws := draws st |} in
        backend rq = Completion text ->
        generate_code_with_ai env "Explain this code in detail" language
          "explain" (Some submitted) st
        = (Ok {| code := text;
                 explanation := "Code generated successfully" |}, st')
        /\ explain_code env submitted language st
           = (Http200 {| ExplainResult.code := submitted;
                         ExplainResult.explanation :=
                           "Code generated successfully";
                         ExplainResult.language := language |}, st')).
Proof.
  split.
  - unfold explain_code, route, bind, ret.
    destruct (generate_code_with_ai_returns env "Explain this code in detail"
                language "explain" (Some submitted) st)
      as (result & st' & E & _).
    rewrite E. now eexists _, _.
  - intros backend sp text Hc Hsp rq st' Hb.
    assert (G : generate_code_with_ai env "Explain this code in detail"
                  language "explain" (Some submitted) st
                = (Ok {| code := text;
                         explanation := "Code generated successfully" |}, st')).
    { unfold generate_code_with_ai, try_except.
      rewrite Hc, Hsp.
      unfold bind, ret, chat_completions_create, lift.
      fold rq. rewrite Hb. reflexivity. }
    split; [exact G|].
    unfold explain_code, route, bind, ret. now rewrite G.
Qed.

Lemma explain_code_returns_submitted_code_witness :
  fst (explain_code (env_answering "This function adds two numbers.")
         "def add(a, b): return a + b" "python" empty_state)
  = Http200 {| ExplainResult.code := "def add(a, b): return a + b";
               ExplainResult.explanation := "Code generated successfully";
               ExplainResult.language := "python" |}.
Proof.
  destruct (explain_code_returns_submitted_code
              (env_answering "This function adds two numbers.")
              "def add(a, b): return a + b" "python" empty_state)
    as (_ & Hok).
  destruct (Hok (fun _ => Completion "This function adds two numbers.") _
              "This function adds two numbers." eq_refl eq_refl eq_refl)
    as (_ & E).
  rewrite E. reflexivity.
Defined.

(** C8, as amended.  Of the fields of the body only [prompt] is required:
    a body without it is answered 422 with the state untouched, so before
    any backend call or store write; a body with a prompt is accepted, a
    missing [language] becomes "javascript", a missing [request_type]
    becomes "generate", and [generate_code] runs on the result. *)
Theorem generate_requires_prompt_only
    (env : Env) (body : GenerateBody.t) (st : State) :
  (GenerateBody.prompt body = None ->
   post_generate_code env body st = (Http422 ["prompt"], st))
  /\ (forall prompt,
        GenerateBody.prompt body = Some prompt ->
        post_generate_code env body st
        = generate_code env
            {| CodeRequestCreate.prompt := prompt;
               CodeRequestCreate.language :=
                 match GenerateBody.language body with
                 | Some l => l
                 | None => "javascript"
                 end;
               CodeRequestCreate.request_type :=
                 match GenerateBody.request_type body with
                 | Some r => r
                 | None => "generate"
                 end;
               CodeRequestCreate.code_input := GenerateBody.code_input body |}
            st)
  /\ (forall prompt,
        GenerateBody.prompt body = Some prompt ->
        GenerateBody.language body = None ->
        exists request,
          CodeRequestCreate_of_body body = inr request
          /\ CodeRequestCreate.language request = "javascript").
Proof.
  unfold post_generate_code, CodeRequestCreate_of_body.
  split; [|split].
  - intros H. now rewrite H.
  - intros prompt H. now rewrite H.
  - intros prompt H L. rewrite H, L. now eexists.
Qed.

Lemma generate_requires_prompt_only_witness :
  post_generate_code env_without_key body_without_prompt empty_state
  = (Http422 ["prompt"], empty_state).
Proof.
  apply (generate_requires_prompt_only env_without_key body_without_prompt
           empty_state).
  reflexivity.
Defined.

(** C8, as stated, fails: a body with a prompt and no language passes
    validation and is served. *)
Lemma body_without_language_is_accepted :
  GenerateBody.language body_without_language = None
  /\ (exists request,
         CodeRequestCreate_of_body body_without_language = inr request)
  /\ (exists response,
         fst (post_generate_code env_without_key body_without_language
                empty_state) = Http200 response).
Proof.
  split; [reflexivity|]. split; eexists; reflexivity.
Qed.

(* ================================================================= *)
(** * More on the parse of the backend's text *)

Lemma startswith_take p : forall k s,
  startswith p (take k s) = true -> startswith p s = true.
Proof.
  induction p as [|a p IH]; intros k s; [reflexivity|].
  destruct k as [|k], s as [|b s]; simpl; try discriminate.
  intros H. apply andb_true_iff in H as [Hab H].
  now rewrite Hab, (IH _ _ H).
Qed.

Lemma startswith_empty p : startswith p "" = true -> p = "".
Proof. destruct p; [reflexivity | discriminate]. Qed.

Lemma contains_cons sub c s :
  contains sub s = true -> contains sub (String c s) = true.
Proof.
  unfold contains. intros H. rewrite find_unfold.
  destruct (startswith sub (String c s)); [reflexivity|].
  now destruct (find sub s).
Qed.

(** What holds a text holds every prefix of it. *)
Lemma contains_take sub : forall s k,
  contains sub (take k s) = true -> contains sub s = true.
Proof.
  unfold contains.
  induction s as [|c s IH]; intros k.
  - now destruct k.
  - destruct k as [|k].
    + cbn [take]. rewrite find_unfold.
      destruct (startswith sub "") eqn:E; [|discriminate].
      apply startswith_empty in E; subst sub. reflexivity.
    + cbn [take]. rewrite (find_unfold sub (String c (take k s))).
      rewrite (find_unfold sub (String c s)).
      destruct (startswith sub (String c (take k s))) eqn:E.
      * apply (startswith_take sub (S k) (String c s)) in E.
        now rewrite E.
      * destruct (startswith sub (String c s)); [reflexivity|].
        specialize (IH k).
        destruct (find sub (take k s)); [|discriminate].
        intros _. now destruct (find sub s); [|discriminate IH].
Qed.

(** The text before the first occurrence does not hold the pattern. *)
Lemma contains_before_first sub : forall s j,
  sub <> "" ->
  find sub s = Some j ->
  contains sub (take j s) = false.
Proof.
  unfold contains. intros s j Hsub. revert j.
  induction s as [|c s IH]; intros j; rewrite find_unfold.
  - destruct (startswith sub "") eqn:E; [|discriminate].
    apply startswith_empty in E. contradiction.
  - destruct (startswith sub (String c s)) eqn:E.
    + intros H; injection H as <-. cbn [take]. rewrite find_unfold.
      destruct (startswith sub "") eqn:E0; [|reflexivity].
      apply startswith_empty in E0. contradiction.
    + destruct (find sub s) as [j'|] eqn:F; [|discriminate].
      intros H; injection H as <-. cbn [take]. rewrite find_unfold.
      destruct (startswith sub (String c (take j' s))) eqn:E1.
      * apply (startswith_take sub (S j') (String c s)) in E1. congruence.
      * specialize (IH j' eq_refl). now destruct (find sub (take j' s)).
Qed.

Lemma lstrip_suffix sub : forall s,
  contains sub (lstrip s) = true -> contains sub s = true.
Proof.
  induction s as [|c s IH]; [easy|]. cbn [lstrip].
  destruct (isspace c); [|easy].
  intros H. apply contains_cons. now apply IH.
Qed.

Lemma rstrip_prefix : forall s, exists k, rstrip s = take k s.
Proof.
  induction s as [|c s [k IH]]; [now exists 0|]. cbn [rstrip].
  destruct (rstrip s) as [|d r] eqn:R.
  - destruct (isspace c); [now exists 0 | now exists 1; destruct s].
  - exists (S k). cbn [take]. now rewrite IH.
Qed.

(** Trimming adds no occurrence of a pattern. *)
Lemma contains_strip sub s :
  contains sub (strip s) = true -> contains sub s = true.
Proof.
  unfold strip. intros H. apply lstrip_suffix.
  destruct (rstrip_prefix (lstrip s)) as [k E]. rewrite E in H.
  now apply contains_take in H.
Qed.

Lemma lstrip_fixed s :
  match s with
  | EmptyString => true
  | String c _ => negb (isspace c)
  end = true ->
  lstrip s = s.
Proof.
  destruct s as [|c s]; [reflexivity|]. cbn [lstrip].
  now destruct (isspace c).
Qed.

Lemma lstrip_head : forall s,
  match lstrip s with
  | EmptyString => true
  | String c _ => negb (isspace c)
  end = true.
Proof.
  induction s as [|c s IH]; [reflexivity|]. cbn [lstrip].
  destruct (isspace c) eqn:E; [exact IH|]. now rewrite E.
Qed.

Lemma rstrip_head s :
  match s with
  | EmptyString => true
  | String c _ => negb (isspace c)
  end = true ->
  match rstrip s with
  | EmptyString => true
  | String c _ => negb (isspace c)
  end = true.
Proof.
  destruct s as [|c s]; [reflexivity|]. cbn [rstrip].
  destruct (isspace c) eqn:E; [discriminate|]. intros _.
  destruct (rstrip s); now rewrite E.
Qed.

Lemma rstrip_idempotent : forall s, rstrip (rstrip s) = rstrip s.
Proof.
  induction s as [|c s IH]; [reflexivity|]. cbn [rstrip].
  destruct (rstrip s) as [|d r] eqn:R.
  - destruct (isspace c) eqn:E; [reflexivity|]. cbn [rstrip]. now rewrite E.
  - cbn [rstrip] in *. now rewrite IH.
Qed.

(** [s.strip().strip() == s.strip()] *)
Lemma strip_idempotent s : strip (strip s) = strip s.
Proof.
  unfold strip.
  rewrite (lstrip_fixed (rstrip (lstrip s))).
  - apply rstrip_idempotent.
  - apply rstrip_head, lstrip_head.
Qed.

(** X1. What the debug parse computes on a text that holds the marker,
    with [i] the place of its first occurrence: the explanation is the
    text before that place with every [ISSUE:] taken out, trimmed; the
    code is the text from after the marker up to the next marker (or up
    to the end when there is none), trimmed. *)
Theorem debug_parse_with_marker (text : string) (i : nat) :
  find "FIXED CODE:" text = Some i ->
  parse_ai_response "debug" text
  = Ok {| code := strip (text_before_first "FIXED CODE:"
                           (drop (i + 11) text));
          explanation := strip (replace "ISSUE:" "" (take i text)) |}.
Proof. apply parse_debug_marker_present. Qed.

Lemma debug_parse_with_marker_witness :
  parse_ai_response "debug" "note FIXED CODE: x = 1 FIXED CODE: y = 2"
  = Ok {| code := "x = 1"; explanation := "note" |}.
Proof.
  apply (debug_parse_with_marker "note FIXED CODE: x = 1 FIXED CODE: y = 2" 5).
  reflexivity.
Defined.

(** X2. The parse never raises: neither [split] nor the two subscripts
    [parts[0]] and [parts[1]] can fail, for any request type and any
    text. *)
Theorem parse_ai_response_never_raises (request_type text : string) :
  exists r, parse_ai_response request_type text = Ok r.
Proof. apply parse_ai_response_returns. Qed.

(** X3. In debug mode, on a text that holds the marker, the code and the
    explanation come back trimmed: trimming them again changes nothing. *)
Theorem debug_parse_results_are_trimmed (text : string) :
  contains "FIXED CODE:" text = true ->
  exists r,
    parse_ai_response "debug" text = Ok r
    /\ strip (code r) = code r
    /\ strip (explanation r) = explanation r.
Proof.
  unfold contains. intros C.
  destruct (find "FIXED CODE:" text) as [i|] eqn:F; [|discriminate].
  rewrite (parse_debug_marker_present _ _ F). eexists.
  split; [reflexivity|]. cbn [code explanation].
  split; apply strip_idempotent.
Qed.

Lemma debug_parse_results_are_trimmed_witness :
  exists r,
    parse_ai_response "debug" "ISSUE:  off by one   FIXED CODE:   i += 1  "
    = Ok r
    /\ strip (code r) = code r
    /\ strip (explanation r) = explanation r.
Proof.
  apply (debug_parse_results_are_trimmed
           "ISSUE:  off by one   FIXED CODE:   i += 1  ").
  reflexivity.
Defined.

(** X4. In debug mode the code that comes back never holds the marker
    [FIXED CODE:], whatever the text: without a marker the text is the
    code, with one the code stops before the next. *)
Theorem debug_code_never_holds_marker (text : string) :
  exists r,
    parse_ai_response "debug" text = Ok r
    /\ contains "FIXED CODE:" (code r) = false.
Proof.
  destruct (contains "FIXED CODE:" text) eqn:C.
  - unfold contains in C.
    destruct (find "FIXED CODE:" text) as [i|] eqn:F; [|discriminate].
    rewrite (parse_debug_marker_present _ _ F). eexists.
    split; [reflexivity|]. cbn [code].
    destruct (contains "FIXED CODE:"
                (strip (text_before_first "FIXED CODE:" (drop (i + 11) text))))
      eqn:S; [|reflexivity].
    apply contains_strip in S. unfold text_before_first in S.
    destruct (find "FIXED CODE:" (drop (i + 11) text)) as [j|] eqn:G.
    + now rewrite (contains_before_first "FIXED CODE:" _ j) in S.
    + unfold contains in S. now rewrite G in S.
  - rewrite (parse_debug_marker_absent _ C). now eexists.
Qed.

(* ================================================================= *)
(** * More on the template fallback *)

Lemma placeholder_holds_newline prompt language :
  contains nl (code (generic_placeholder prompt language)) = true.
Proof.
  unfold generic_placeholder; cbn [code].
  rewrite <- (append_assoc " code for: "), <- (append_assoc (title language)),
    <- (append_assoc "// ").
  apply contains_app.
Qed.

Lemma placeholder_is_no_default prompt language :
  code (generic_placeholder prompt language) <> "// Template not available".
Proof.
  intros E. pose proof (placeholder_holds_newline prompt language) as H.
  rewrite E in H. vm_compute in H. discriminate H.
Qed.

(** The result of the selector, language by language. *)
Lemma select_by_priority_cases prompt language :
  select_by_priority prompt language =
  if String.eqb "javascript" language then
    if rule_matches (lower prompt) language ReactRule then
      {| code := template_javascript_react_component;
         explanation := "Generated React component template" |}
    else if rule_matches (lower prompt) language ApiRule then
      {| code := template_javascript_api_endpoint;
         explanation := "Generated API template" |}
    else if rule_matches (lower prompt) language FunctionRule then
      {| code := template_javascript_function;
         explanation := "Generated function template" |}
    else if rule_matches (lower prompt) language ClassRule then
      {| code := "# Template not available";
         explanation := "Generated class template" |}
    else generic_placeholder prompt language
  else if String.eqb "python" language then
    if rule_matches (lower prompt) language ReactRule then
      {| code := "// Template not available";
         explanation := "Generated React component template" |}
    else if rule_matches (lower prompt) language ApiRule then
      {| code := template_python_api;
         explanation := "Generated API template" |}
    else if rule_matches (lower prompt) language FunctionRule then
      {| code := template_python_function;
         explanation := "Generated function template" |}
    else if rule_matches (lower prompt) language ClassRule then
      {| code := template_python_class;
         explanation := "Generated class template" |}
    else generic_placeholder prompt language
  else generic_placeholder prompt language.
Proof.
  unfold select_by_priority. rewrite lookup_templates.
  destruct (String.eqb "javascript" language);
    [|destruct (String.eqb "python" language)];
    unfold rule_order; cbn [List.find];
    repeat match goal with
           | |- context [rule_matches ?p ?l ?r] =>
               destruct (rule_matches p l r)
           end;
    reflexivity.
Qed.

Lemma class_rule_needs_python prompt_lower language :
  rule_matches prompt_lower language ClassRule = true -> language = "python".
Proof.
  cbn [rule_matches]. intros H. apply andb_true_iff in H as [_ H].
  now apply String.eqb_eq.
Qed.

(** X5. The nested conditionals of [get_template_code] amount to an
    ordered rule list tried on the lower-cased prompt: react or component,
    then api, endpoint or server, then function, then class for python;
    the first rule that matches decides, and the placeholder is the
    result when none does or the language has no catalog. *)
Theorem get_template_code_first_matching_rule
    (prompt language request_type : string) :
  get_template_code prompt language request_type
  = Ok (match lookup templates language with
        | None => generic_placeholder prompt language
        | Some t =>
            match List.find (rule_matches (lower prompt) language)
                    [ReactRule; ApiRule; FunctionRule; ClassRule] with
            | Some r => rule_result t r
            | None => generic_placeholder prompt language
            end
        end).
Proof. apply get_template_code_by_priority. Qed.

(** X6. The default text "// Template not available" is what comes back
    exactly when the language is python and the prompt mentions react or
    component; the other default, "# Template not available", never comes
    back, since the class rule is for python only and python has a class
    template. *)
Theorem template_not_available_only_for_python_react
    (prompt language request_type : string) :
  exists r,
    get_template_code prompt language request_type = Ok r
    /\ code r <> "# Template not available"
    /\ (code r = "// Template not available"
        <-> language = "python"
            /\ contains "react" (lower prompt)
                 || contains "component" (lower prompt) = true).
Proof.
  rewrite get_template_code_by_priority, select_by_priority_cases.
  eexists. split; [reflexivity|].
  change (contains "react" (lower prompt)
          || contains "component" (lower prompt))
    with (rule_matches (lower prompt) language ReactRule).
  destruct (String.eqb_spec "javascript" language) as [<-|NJ];
    [|destruct (String.eqb_spec "python" language) as [<-|NP]].
  - destruct (rule_matches (lower prompt) "javascript" ClassRule) eqn:HC;
      [apply class_rule_needs_python in HC; discriminate HC|].
    repeat match goal with
           | |- context [if rule_matches ?p ?l ?r then _ else _] =>
               destruct (rule_matches p l r)
           end;
      (split; [vm_compute; discriminate|]);
      (split; [intros H; exfalso;
               first [ now apply placeholder_is_no_default in H
                     | vm_compute in H; discriminate H ]
              | intros [H _]; discriminate H]).
  - repeat match goal with
           | |- context [if rule_matches ?p ?l ?r then _ else _] =>
               destruct (rule_matches p l r) eqn:?
           end;
      (split; [vm_compute; discriminate|]);
      (split; [intros H;
               first [ now split
                     | exfalso;
                       first [ now apply placeholder_is_no_default in H
                             | vm_compute in H; discriminate H ] ]
              | intros [_ H]; first [reflexivity | discriminate H]]).
  - split; [vm_compute; discriminate|].
    split; [intros H; now apply placeholder_is_no_default in H
           | intros [H _]; congruence].
Qed.

(** X7. The keyword rules do not see letter case: two prompts with the
    same lower-cased form get the same explanation, and the same code
    unless both get the placeholder, which quotes each prompt as it was
    written. *)
Theorem keyword_rules_ignore_case
    (prompt1 prompt2 language request_type : string) :
  lower prompt1 = lower prompt2 ->
  exists r1 r2,
    get_template_code prompt1 language request_type = Ok r1
    /\ get_template_code prompt2 language request_type = Ok r2
    /\ explanation r1 = explanation r2
    /\ (code r1 = code r2
        \/ (r1 = generic_placeholder prompt1 language
            /\ r2 = generic_placeholder prompt2 language)).
Proof.
  intros E. rewrite !get_template_code_by_priority.
  eexists _, _. split; [reflexivity|]. split; [reflexivity|].
  unfold select_by_priority. rewrite E.
  destruct (lookup templates language) as [t|].
  - destruct (List.find _ rule_order); auto.
  - auto.
Qed.

Lemma keyword_rules_ignore_case_witness :
  exists r1 r2,
    get_template_code "Build a REACT Component" "javascript" "generate"
    = Ok r1
    /\ get_template_code "build a react component" "javascript" "generate"
       = Ok r2
    /\ explanation r1 = explanation r2
    /\ (code r1 = code r2
        \/ (r1 = generic_placeholder "Build a REACT Component" "javascript"
            /\ r2 = generic_placeholder "build a react component"
                      "javascript")).
Proof.
  apply (keyword_rules_ignore_case "Build a REACT Component"
           "build a react component" "javascript" "generate").
  reflexivity.
Defined.


(** X9. The languages that [get_supported_languages] lists have distinct
    identifiers, and of the fifteen only javascript and python are in the
    template catalog: for each of the other thirteen the fallback returns
    the placeholder whatever the prompt. *)
Theorem supported_languages_without_templates :
  NoDup (map Language.id get_supported_languages)
  /\ map Language.id
       (filter (fun l => dict_in (Language.id l) templates)
          get_supported_languages)
     = ["javascript"; "python"]
  /\ forall l,
       In l get_supported_languages ->
       Language.id l <> "javascript" ->
       Language.id l <> "python" ->
       forall prompt request_type,
         get_template_code prompt (Language.id l) request_type
         = Ok (generic_placeholder prompt (Language.id l)).
Proof.
  split; [|split; [reflexivity|]].
  - unfold get_supported_languages; cbn [map Language.id].
    repeat (constructor;
            [cbn [In]; intros H;
             repeat (destruct H as [H|H]; [discriminate H|]); exact H|]).
    constructor.
  - intros l H NJ NP prompt request_type.
    unfold get_supported_languages in H; cbn [In] in H.
    repeat (destruct H as [<-|H];
            [first [ now contradiction NJ | now contradiction NP
                   | reflexivity ]|]).
    contradiction H.
Qed.

Lemma supported_languages_without_templates_witness :
  get_template_code "a React component with an api"
    "typescript" "generate"
  = Ok (generic_placeholder "a React component with an api" "typescript").
Proof.
  destruct supported_languages_without_templates as (_ & _ & H).
  apply (H {| Language.id := "typescript"; Language.name := "TypeScript";
              Language.extensions := [".ts"; ".tsx"] |}).
  - cbn [get_supported_languages In]. right. left. reflexivity.
  - discriminate.
  - discriminate.
Defined.

(* ================================================================= *)
(** * More on the backend call *)

Lemma system_prompt_for_unbound request_type language :
  request_type <> "generate" ->
  request_type <> "debug" ->
  request_type <> "explain" ->
  request_type <> "optimize" ->
  system_prompt_for request_type language = None.
Proof.
  intros G D E O. unfold system_prompt_for.
  apply String.eqb_neq in G, D, E, O.
  now rewrite G, D, E, O.
Qed.

(** X10. A request type other than generate, debug, explain and optimize
    never reaches the backend, even with a client: [system_prompt] is
    unbound when the request is built, the exception is logged, and the
    result is that of [get_template_code]. *)
Theorem unknown_request_type_skips_backend
    (env : Env) (backend : Backend)
    (prompt language request_type : string) (code_input : option string)
    (st : State) :
  client env = Some backend ->
  request_type <> "generate" ->
  request_type <> "debug" ->
  request_type <> "explain" ->
  request_type <> "optimize" ->
  exists st',
    generate_code_with_ai env prompt language request_type code_input st
    = (get_template_code prompt language request_type, st')
    /\ sent st' = sent st
    /\ log st'
       = (log st
          ++ [("AI generation error: "
               ++ str_of_exn (UnboundLocalError "system_prompt"))%string])%list.
Proof.
  intros Hc G D E O.
  rewrite (unknown_request_type_falls_back env backend prompt language
             request_type code_input st Hc
             (system_prompt_for_unbound request_type language G D E O)).
  now eexists.
Qed.

Lemma unknown_request_type_skips_backend_witness :
  exists st',
    generate_code_with_ai (env_answering "print(1)")
      "write a function to add two numbers" "python" "translate" None
      empty_state
    = (Ok {| code := template_python_function;
             explanation := "Generated function template" |}, st')
    /\ sent st' = []
    /\ log st'
       = ["AI generation error: cannot access local variable 'system_prompt' where it is not associated with a value"].
Proof.
  apply (unknown_request_type_skips_backend (env_answering "print(1)")
           (fun _ => Completion "print(1)")
           "write a function to add two numbers" "python" "translate" None
           empty_state);
    [reflexivity | discriminate ..].
Defined.

(** X11. One run of [generate_code_with_ai] calls
    [client.chat.completions.create] at most once: the function has no
    retry loop of its own (what the client library does inside that one
    call is outside the model).  The call is always for the model gpt-4
    with at most 2000 tokens; the run logs at most one line, and it
    neither writes to the store nor draws an identifier. *)
Theorem at_most_one_backend_call
    (env : Env) (prompt language request_type : string)
    (code_input : option string) (st : State) :
  exists result st',
    generate_code_with_ai env prompt language request_type code_input st
    = (Ok result, st')
    /\ db st' = db st
    /\ draws st' = draws st
    /\ (sent st' = sent st
        \/ exists rq,
            sent st' = (sent st ++ [rq])%list
            /\ model rq = "gpt-4" /\ max_tokens rq = 2000
            /\ user_content rq = user_message_for prompt language code_input)
    /\ (log st' = log st \/ exists line, log st' = (log st ++ [line])%list).
Proof.
  pose proof (get_template_code_by_priority prompt language request_type)
    as Hr.
  unfold generate_code_with_ai, try_except, bind, lift, ret, raise,
    chat_completions_create, logging_error.
  destruct (client env) as [backend|].
  - destruct (system_prompt_for request_type language) as [sp|].
    + destruct (backend _) as [content|e].
      * destruct (parse_ai_response request_type content) as [g|e'].
        -- eexists _, _. split; [reflexivity|]. cbn [db draws sent log].
           repeat split; [right; eexists; repeat split | now left].
        -- rewrite Hr. eexists _, _. split; [reflexivity|].
           cbn [db draws sent log].
           repeat split; [right; eexists; repeat split | right; now eexists].
      * rewrite Hr. eexists _, _. split; [reflexivity|].
        cbn [db draws sent log].
        repeat split; [right; eexists; repeat split | right; now eexists].
    + rewrite Hr. eexists _, _. split; [reflexivity|].
      cbn [db draws sent log].
      repeat split; [now left | right; now eexists].
  - rewrite Hr. eexists _, _. split; [reflexivity|].
    repeat split; now left.
Qed.

(** X12. Outside debug mode the backend's text is the code as it came,
    untrimmed and uncut even if it holds the markers, the explanation is
    the constant "Code generated successfully", and nothing is logged. *)
Theorem backend_text_is_code_outside_debug
    (env : Env) (backend : Backend)
    (prompt language request_type sp text : string)
    (code_input : option string) (st : State) :
  client env = Some backend ->
  system_prompt_for request_type language = Some sp ->
  request_type <> "debug" ->
  backend {| model := "gpt-4"; system_content := sp;
             user_content := user_message_for prompt language code_input;
             max_tokens := 2000 |} = Completion text ->
  generate_code_with_ai env prompt language request_type code_input st
  = (Ok {| code := text; explanation := "Code generated successfully" |},
     {| db := db st; log := log st;
        sent := (sent st
                 ++ [{| model := "gpt-4"; system_content := sp;
                        user_content :=
                          user_message_for prompt language code_input;
                        max_tokens := 2000 |}])%list;
        draws := draws st |}).
Proof.
  intros Hc Hsp ND Hb.
  unfold generate_code_with_ai, try_except.
  rewrite Hc, Hsp.
  unfold bind, ret, chat_completions_create, lift.
  rewrite Hb. unfold parse_ai_response.
  apply String.eqb_neq in ND. now rewrite ND.
Qed.

Lemma backend_text_is_code_outside_debug_witness :
  fst (generate_code_with_ai
         (env_answering "  ISSUE: none FIXED CODE: pass  ")
         "write a function" "python" "generate" None empty_state)
  = Ok {| code := "  ISSUE: none FIXED CODE: pass  ";
          explanation := "Code generated successfully" |}.
Proof.
  rewrite (backend_text_is_code_outside_debug
             (env_answering "  ISSUE: none FIXED CODE: pass  ")
             (fun _ => Completion "  ISSUE: none FIXED CODE: pass  ")
             "write a function" "python" "generate" _
             "  ISSUE: none FIXED CODE: pass  " None empty_state
             eq_refl eq_refl);
    [reflexivity | discriminate | reflexivity].
Defined.

(* ================================================================= *)
(** * More on the routes *)

(** X13. The debug, optimize and explain routes always answer 200: they
    have no failure of their own, since [generate_code_with_ai] absorbs
    the backend's.  They write nothing to the store and draw no
    identifier, and they hand the submitted code and language back
    unchanged. *)
Theorem side_routes_answer_and_store_nothing (env : Env) (st : State) :
  (forall request,
      exists body st',
        debug_code env request st = (Http200 body, st')
        /\ db st' = db st /\ draws st' = draws st
        /\ DebugResult.original_code body = DebugRequest.code request
        /\ DebugResult.language body = DebugRequest.language request)
  /\ (forall request,
        exists body st',
          optimize_code env request st = (Http200 body, st')
          /\ db st' = db st /\ draws st' = draws st
          /\ OptimizeResult.original_code body = OptimizeRequest.code request
          /\ OptimizeResult.language body = OptimizeRequest.language request
          /\ OptimizeResult.optimization_type body
             = OptimizeRequest.optimization_type request)
  /\ (forall submitted language,
        exists body st',
          explain_code env submitted language st = (Http200 body, st')
          /\ db st' = db st /\ draws st' = draws st
          /\ ExplainResult.code body = submitted
          /\ ExplainResult.language body = language).
Proof.
  split; [|split].
  - intros request. unfold debug_code, route, bind, ret.
    match goal with
    | |- context [generate_code_with_ai env ?p ?l ?r ?c st] =>
        destruct (generate_code_with_ai_returns env p l r c st)
          as (result & st' & E & Hdb & Hdr)
    end.
    rewrite E. now eexists _, st'.
  - intros request. unfold optimize_code, route, bind, ret.
    match goal with
    | |- context [generate_code_with_ai env ?p ?l ?r ?c st] =>
        destruct (generate_code_with_ai_returns env p l r c st)
          as (result & st' & E & Hdb & Hdr)
    end.
    rewrite E. now eexists _, st'.
  - intros submitted language. unfold explain_code, route, bind, ret.
    match goal with
    | |- context [generate_code_with_ai env ?p ?l ?r ?c st] =>
        destruct (generate_code_with_ai_returns env p l r c st)
          as (result & st' & E & Hdb & Hdr)
    end.
    rewrite E. now eexists _, st'.
Qed.

(** X14. Without an API key the answers of the debug, optimize and
    explain routes do not depend on the code submitted: two requests
    that differ only in their code get the same fixed or optimized code
    and the same explanation, and the state is left as it was. *)
Theorem offline_answers_ignore_submitted_code
    (env : Env) (st : State) (code1 code2 language : string) :
  client env = None ->
  (forall error_message,
      exists fixed explanation,
        debug_code env (DebugRequest.mk code1 language error_message) st
        = (Http200 (DebugResult.mk code1 fixed explanation language), st)
        /\ debug_code env (DebugRequest.mk code2 language error_message) st
           = (Http200 (DebugResult.mk code2 fixed explanation language), st))
  /\ (forall optimization_type,
        exists optimized explanation,
          optimize_code env
            (OptimizeRequest.mk code1 language optimization_type) st
          = (Http200 (OptimizeResult.mk code1 optimized explanation language
                        optimization_type), st)
          /\ optimize_code env
               (OptimizeRequest.mk code2 language optimization_type) st
             = (Http200 (OptimizeResult.mk code2 optimized explanation
                           language optimization_type), st))
  /\ (exists explanation,
        explain_code env code1 language st
        = (Http200 (ExplainResult.mk code1 explanation language), st)
        /\ explain_code env code2 language st
           = (Http200 (ExplainResult.mk code2 explanation language), st)).
Proof.
  intros Hc. split; [|split].
  - intros error_message. unfold debug_code, route, bind, ret.
    cbn [DebugRequest.code DebugRequest.language DebugRequest.error_message].
    rewrite !(generate_code_with_ai_offline env _ _ _ _ st Hc).
    rewrite get_template_code_by_priority. now eexists _, _.
  - intros optimization_type. unfold optimize_code, route, bind, ret.
    cbn [OptimizeRequest.code OptimizeRequest.language
         OptimizeRequest.optimization_type].
    rewrite !(generate_code_with_ai_offline env _ _ _ _ st Hc).
    rewrite get_template_code_by_priority. now eexists _, _.
  - unfold explain_code, route, bind, ret.
    rewrite !(generate_code_with_ai_offline env _ _ _ _ st Hc).
    rewrite get_template_code_by_priority. now eexists.
Qed.

Lemma offline_answers_ignore_submitted_code_witness :
  exists explanation,
    explain_code env_without_key "x = 1" "python" empty_state
    = (Http200 (ExplainResult.mk "x = 1" explanation "python"), empty_state)
    /\ explain_code env_without_key "while True: pass" "python" empty_state
       = (Http200 (ExplainResult.mk "while True: pass" explanation "python"),
          empty_state).
Proof.
  apply (offline_answers_ignore_submitted_code env_without_key empty_state
           "x = 1" "while True: pass" "python").
  reflexivity.
Defined.

(** X15. Without an API key the explain route explains nothing: for every
    code and every language the explanation is the placeholder's notice
    about the missing key. *)
Theorem offline_explain_returns_notice
    (env : Env) (st : State) (submitted language : string) :
  client env = None ->
  explain_code env submitted language st
  = (Http200
       {| ExplainResult.code := submitted;
          ExplainResult.explanation :=
            "Basic template generated. For advanced AI-powered code generation, please configure OpenAI API key.";
          ExplainResult.language := language |}, st).
Proof.
  intros Hc. unfold explain_code, route, bind, ret.
  rewrite (generate_code_with_ai_offline env _ _ _ _ st Hc).
  unfold get_template_code.
  destruct (dict_in language templates); reflexivity.
Qed.

Lemma offline_explain_returns_notice_witness :
  fst (explain_code env_without_key "def add(a, b): return a + b"
         "python" empty_state)
  = Http200
      {| ExplainResult.code := "def add(a, b): return a + b";
         ExplainResult.explanation :=
           "Basic template generated. For advanced AI-powered code generation, please configure OpenAI API key.";
         ExplainResult.language := "python" |}.
Proof.
  rewrite (offline_explain_returns_notice env_without_key empty_state
             "def add(a, b): return a + b" "python" eq_refl).
  reflexivity.
Defined.

(** X16. When the backend answers the optimize route with a text, the
    whole text comes back as [optimized_code], and the explanation is the
    constant "Code generated successfully": what the backend wrote about
    its optimizations is not set apart from the code. *)
Theorem optimize_code_returns_backend_text
    (env : Env) (backend : Backend) (request : OptimizeRequest.t)
    (sp text : string) (st : State) :
  client env = Some backend ->
  system_prompt_for "optimize" (OptimizeRequest.language request) = Some sp ->
  let prompt :=
    "Optimize this " ++ OptimizeRequest.language request ++ " code for "
      ++ OptimizeRequest.optimization_type request in
  let rq :=
    {| model := "gpt-4"; system_content := sp;
       user_content :=
         user_message_for prompt (OptimizeRequest.language request)
           (Some (OptimizeRequest.code request));
       max_tokens := 2000 |} in
  backend rq = Completion text ->
  optimize_code env request st
  = (Http200
       {| OptimizeResult.original_code := OptimizeRequest.code request;
          OptimizeResult.optimized_code := text;
          OptimizeResult.explanation := "Code generated successfully";
          OptimizeResult.language := OptimizeRequest.language request;
          OptimizeResult.optimization_type :=
            OptimizeRequest.optimization_type request |},
     {| db := db st; log := log st;
        sent := (sent st ++ [rq])%list; draws := draws st |}).
Proof.
  intros Hc Hsp prompt rq Hb.
  unfold optimize_code, route, bind, ret.
  fold prompt.
  assert (G : generate_code_with_ai env prompt
                (OptimizeRequest.language request) "optimize"
                (Some (OptimizeRequest.code request)) st
              = (Ok {| code := text;
                       explanation := "Code generated successfully" |},
                 {| db := db st; log := log st;
                    sent := (sent st ++ [rq])%list; draws := draws st |})).
  { unfold generate_code_with_ai, try_except.
    rewrite Hc, Hsp.
    unfold bind, ret, chat_completions_create, lift.
    fold rq. rewrite Hb. reflexivity. }
  now rewrite G.
Qed.

Lemma optimize_code_returns_backend_text_witness :
  fst (optimize_code
         (env_answering "Use a set. Here is the code: seen = set()")
         (OptimizeRequest.mk "seen = []" "python" "performance")
         empty_state)
  = Http200
      {| OptimizeResult.original_code := "seen = []";
         OptimizeResult.optimized_code :=
           "Use a set. Here is the code: seen = set()";
         OptimizeResult.explanation := "Code generated successfully";
         OptimizeResult.language := "python";
         OptimizeResult.optimization_type := "performance" |}.
Proof.
  rewrite (optimize_code_returns_backend_text
             (env_answering "Use a set. Here is the code: seen = set()")
             (fun _ => Completion "Use a set. Here is the code: seen = set()")
             (OptimizeRequest.mk "seen = []" "python" "performance")
             _ "Use a set. Here is the code: seen = set()" empty_state
             eq_refl eq_refl eq_refl).
  reflexivity.
Defined.

(** X17. Without an API key a generate request that is answered 200 gets
    the template result in [generated_code] and [explanation] and its own
    language back; the request's identifier and time are the first two
    values drawn, the response's the next two; nothing is logged and
    nothing is sent to the backend. *)
Theorem offline_generate_code_response
    (env : Env) (request : CodeRequestCreate.t) (st st' : State)
    (response : CodeResponse.t) :
  client env = None ->
  generate_code env request st = (Http200 response, st') ->
  exists r,
    get_template_code (CodeRequestCreate.prompt request)
      (CodeRequestCreate.language request)
      (CodeRequestCreate.request_type request) = Ok r
    /\ response
       = {| CodeResponse.id := uuid4 env (draws st + 2);
            CodeResponse.request_id := uuid4 env (draws st);
            CodeResponse.generated_code := code r;
            CodeResponse.explanation := explanation r;
            CodeResponse.language := CodeRequestCreate.language request;
            CodeResponse.timestamp := utcnow env (draws st + 3) |}
    /\ log st' = log st /\ sent st' = sent st
    /\ draws st' = draws st + 4.
Proof.
  intros Hc.
  unfold generate_code, route, new_CodeRequest.
  unfold bind, new_uuid, now, insert_one, ret, logging_error.
  cbn [db log sent draws].
  match goal with
  | |- context [insert_fault env (db st) ?d] =>
      destruct (insert_fault env (db st) d) as [e|]
  end; [discriminate|].
  rewrite (generate_code_with_ai_offline env _ _ _ _ _ Hc).
  rewrite get_template_code_by_priority. cbn [db log sent draws].
  match goal with
  | |- context [insert_fault env ?s ?d] =>
      destruct (insert_fault env s d) as [e|]
  end; [discriminate|].
  intros H. injection H as <- <-. eexists. split; [reflexivity|].
  cbn [db log sent draws CodeRequest.id].
  replace (draws st + 2) with (S (S (draws st))) by lia.
  replace (draws st + 3) with (S (S (S (draws st)))) by lia.
  replace (draws st + 4) with (S (S (S (S (draws st))))) by lia.
  repeat split.
Qed.

Lemma offline_generate_code_response_witness :
  fst (generate_code env_without_key sample_request empty_state)
  = Http200
      {| CodeResponse.id := "id-2";
         CodeResponse.request_id := "id-0";
         CodeResponse.generated_code := template_python_function;
         CodeResponse.explanation := "Generated function template";
         CodeResponse.language := "python";
         CodeResponse.timestamp := 3 |}.
Proof.
  destruct (generate_code env_without_key sample_request empty_state)
    as [out st'] eqn:E.
  assert (exists response, out = Http200 response) as [response ->].
  { vm_compute in E. injection E as <- _. now eexists. }
  destruct (offline_generate_code_response env_without_key sample_request
              empty_state st' response eq_refl E)
    as (r & Hr & -> & _).
  vm_compute in Hr. injection Hr as <-. reflexivity.
Defined.

(** An empty string in an optional field counts as no value: an empty
    [code_input] gives the same call as a missing one, the user message
    being the prompt alone, and an empty [error_message] gives the same
    debug run as a missing one. *)
Lemma empty_optional_inputs_count_as_absent
    (env : Env) (st : State) :
  (forall prompt language request_type,
      generate_code_with_ai env prompt language request_type
        (Some EmptyString) st
      = generate_code_with_ai env prompt language request_type None st)
  /\ (forall prompt language,
        user_message_for prompt language (Some EmptyString) = prompt)
  /\ (forall submitted language,
        debug_code env (DebugRequest.mk submitted language (Some EmptyString))
          st
        = debug_code env (DebugRequest.mk submitted language None) st).
Proof. repeat split. Qed.

(** X18. When the backend answers the debug route with a text that holds
    the marker, the route returns the two parts of the parse: the part
    after the first marker, up to the next one, trimmed, as [fixed_code],
    and the part before it, without any [ISSUE:], trimmed, as
    [explanation]; the submitted code comes back as [original_code]. *)
Theorem debug_code_returns_parsed_parts
    (env : Env) (backend : Backend) (request : DebugRequest.t)
    (sp text : string) (i : nat) (st : State) :
  client env = Some backend ->
  system_prompt_for "debug" (DebugRequest.language request) = Some sp ->
  let rq :=
    {| model := "gpt-4"; system_content := sp;
       user_content :=
         user_message_for (debug_prompt_of request)
           (DebugRequest.language request)
           (Some (DebugRequest.code request));
       max_tokens := 2000 |} in
  backend rq = Completion text ->
  find "FIXED CODE:" text = Some i ->
  debug_code env request st
  = (Http200
       {| DebugResult.original_code := DebugRequest.code request;
          DebugResult.fixed_code :=
            strip (text_before_first "FIXED CODE:" (drop (i + 11) text));
          DebugResult.explanation :=
            strip (replace "ISSUE:" "" (take i text));
          DebugResult.language := DebugRequest.language request |},
     {| db := db st; log := log st;
        sent := (sent st ++ [rq])%list; draws := draws st |}).
Proof.
  intros Hc Hsp rq Hb F.
  assert (G : generate_code_with_ai env (debug_prompt_of request)
                (DebugRequest.language request) "debug"
                (Some (DebugRequest.code request)) st
              = (Ok {| code := strip (text_before_first "FIXED CODE:"
                                        (drop (i + 11) text));
                       explanation :=
                         strip (replace "ISSUE:" "" (take i text)) |},
                 {| db := db st; log := log st;
                    sent := (sent st ++ [rq])%list; draws := draws st |})).
  { unfold generate_code_with_ai, try_except.
    rewrite Hc, Hsp.
    unfold bind, ret, chat_completions_create, lift.
    fold rq. rewrite Hb.
    now rewrite (parse_debug_marker_present _ _ F). }
  unfold debug_code, route, bind, ret.
  subst rq. unfold debug_prompt_of in *. cbv zeta in *.
  now rewrite G.
Qed.

Lemma debug_code_returns_parsed_parts_witness :
  fst (debug_code
         (env_answering "ISSUE: missing colon FIXED CODE: if x: pass")
         (DebugRequest.mk "if x pass" "python" (Some "SyntaxError"))
         empty_state)
  = Http200
      {| DebugResult.original_code := "if x pass";
         DebugResult.fixed_code := "if x: pass";
         DebugResult.explanation := "missing colon";
         DebugResult.language := "python" |}.
Proof.
  rewrite (debug_code_returns_parsed_parts
             (env_answering "ISSUE: missing colon FIXED CODE: if x: pass")
             (fun _ => Completion "ISSUE: missing colon FIXED CODE: if x: pass")
             (DebugRequest.mk "if x pass" "python" (Some "SyntaxError"))
             _ "ISSUE: missing colon FIXED CODE: if x: pass" 21 empty_state
             eq_refl eq_refl eq_refl eq_refl).
  reflexivity.
Defined.

(** X19. When the write of the request raises, [generate_code] stops
    there: it answers 500 with the exception's text, logs it, and has
    sent nothing to the backend and stored nothing. *)
Theorem failed_request_write_stops_generate_code
    (env : Env) (request : CodeRequestCreate.t) (st : State) (e : exn) :
  insert_fault env (db st) (code_requests (code_request_of env request st))
    = Some e ->
  generate_code env request st
  = (Http500 ("Code generation failed: " ++ str_of_exn e),
     {| db := db st;
        log := (log st
                ++ [("Code generation error: " ++ str_of_exn e)%string])%list;
        sent := sent st;
        draws := draws st + 2 |}).
Proof.
  intros F.
  unfold generate_code, route, new_CodeRequest.
  unfold bind, new_uuid, now, insert_one, ret, logging_error.
  cbn [db log sent draws].
  unfold code_request_of in F. rewrite F. cbn [db log sent draws].
  now replace (draws st + 2) with (S (S (draws st))) by lia.
Qed.

Lemma failed_request_write_stops_generate_code_witness :
  generate_code env_store_down sample_request empty_state
  = (Http500 "Code generation failed: connection refused",
     {| db := [];
        log := ["Code generation error: connection refused"];
        sent := [];
        draws := 2 |}).
Proof.
  apply (failed_request_write_stops_generate_code env_store_down
           sample_request empty_state (StoreError "connection refused")).
  reflexivity.
Defined.

(** X20. There is no rollback: when [generate_code] answers 500 although
    the write of the request went through, the request stays in the
    store, without a response. *)
Theorem failed_response_write_keeps_request
    (env : Env) (request : CodeRequestCreate.t) (st st' : State)
    (detail : string) :
  insert_fault env (db st) (code_requests (code_request_of env request st))
    = None ->
  generate_code env request st = (Http500 detail, st') ->
  db st' = (db st ++ [code_requests (code_request_of env request st)])%list.
Proof.
  intros F H. apply generate_code_cases in H. cbv zeta in H.
  destruct H as [(e & F' & _)
                | (response & _ & [(e & _ & _ & Hdb) | (Hout & _)])].
  - congruence.
  - exact Hdb.
  - discriminate Hout.
Qed.

Lemma failed_response_write_keeps_request_witness :
  db (snd (generate_code env_responses_refused sample_request empty_state))
  = [code_requests
       (code_request_of env_responses_refused sample_request empty_state)].
Proof.
  destruct (generate_code env_responses_refused sample_request empty_state)
    as [out st'] eqn:E.
  assert (exists detail, out = Http500 detail) as [detail ->].
  { vm_compute in E. injection E as <- _. now eexists. }
  exact (failed_response_write_keeps_request env_responses_refused
           sample_request empty_state st' detail eq_refl E).
Defined.

(** X21. The keywords are looked for anywhere in the prompt and in any
    letter case: for a language of the catalog, a prompt in which react
    occurs, in whatever mix of capitals, at whatever place, even inside a
    longer word, gets the result of the React rule. *)
Theorem react_keyword_any_case_any_place
    (before keyword after language request_type : string)
    (t : dict string) :
  lower keyword = "react" ->
  lookup templates language = Some t ->
  get_template_code (before ++ keyword ++ after) language request_type
  = Ok {| code := dict_get t "react_component" "// Template not available";
          explanation := "Generated React component template" |}.
Proof.
  intros K Ht.
  assert (C : contains "react" (lower (before ++ keyword ++ after)) = true).
  { rewrite <- K. apply contains_lower, contains_app. }
  unfold get_template_code, dict_in, getitem. now rewrite Ht, C.
Qed.

Lemma react_keyword_any_case_any_place_witness :
  get_template_code "Measure the REACTion time" "javascript" "generate"
  = Ok {| code := template_javascript_react_component;
          explanation := "Generated React component template" |}.
Proof.
  apply (react_keyword_any_case_any_place "Measure the " "REACT" "ion time"
           "javascript" "generate"
           [ ("react_component", template_javascript_react_component);
             ("api_endpoint", template_javascript_api_endpoint);
             ("function", template_javascript_function) ]);
    reflexivity.
Defined.

(** X22. In debug mode a text that begins with the marker gives an empty
    explanation: nothing stands before the cut. *)
Theorem debug_parse_marker_first_gives_empty_explanation (rest : string) :
  exists r,
    parse_ai_response "debug" ("FIXED CODE:" ++ rest) = Ok r
    /\ explanation r = ""
    /\ code r = strip (text_before_first "FIXED CODE:" rest).
Proof.
  assert (F : find "FIXED CODE:" ("FIXED CODE:" ++ rest) = Some 0).
  { rewrite find_unfold. now rewrite startswith_app. }
  rewrite (parse_debug_marker_present _ _ F). eexists.
  split; [reflexivity|]. split; reflexivity.
Qed.

(* ================================================================= *)
(** * Start and stop of the process *)

Lemma getitem_ok {V} (d : dict V) key v :
  getitem d key = Ok v -> lookup d key = Some v.
Proof.
  unfold getitem. destruct (lookup d key); intros H; inversion H.
  reflexivity.
Qed.

Lemma import_module_ok client_fault database_fault environ g :
  Process.import_module client_fault database_fault environ = Ok g ->
  exists url name,
    lookup environ "MONGO_URL" = Some url
    /\ lookup environ "DB_NAME" = Some name
    /\ Process.mongo_url g = url
    /\ Process.db g = (Process.MotorClient url, name)
    /\ Process.openai_api_key g = dict_get environ "OPENAI_API_KEY" ""
    /\ Process.client g
       = match dict_get environ "OPENAI_API_KEY" "" with
         | EmptyString => None
         | _ => Some (Process.OpenAIClient
                        (dict_get environ "OPENAI_API_KEY" ""))
         end.
Proof.
  unfold Process.import_module, Process.guard.
  destruct (getitem environ "MONGO_URL") as [url|] eqn:U; [|discriminate].
  cbn [exc_bind].
  destruct (client_fault url); [discriminate|]. cbn [exc_bind].
  destruct (getitem environ "DB_NAME") as [name|] eqn:N; [|discriminate].
  cbn [exc_bind].
  destruct (database_fault name); [discriminate|]. cbn [exc_bind].
  intros H. injection H as <-. exists url, name.
  apply getitem_ok in U, N. now repeat split.
Qed.

(** X23. The import needs the two store settings and nothing else: a
    missing [MONGO_URL] is a [KeyError] whatever else is set, and so is a
    missing [DB_NAME] once the client is made; a missing or empty
    [OPENAI_API_KEY] is no error and leaves [client] bound to [None].
    After a successful import [db] belongs to the Mongo client of
    [MONGO_URL]. *)
Theorem import_needs_store_settings_only
    (client_fault database_fault : string -> option exn)
    (environ : dict string) :
  (lookup environ "MONGO_URL" = None ->
   Process.import_module client_fault database_fault environ
   = Raise (KeyError "MONGO_URL"))
  /\ (forall url,
        lookup environ "MONGO_URL" = Some url ->
        client_fault url = None ->
        lookup environ "DB_NAME" = None ->
        Process.import_module client_fault database_fault environ
        = Raise (KeyError "DB_NAME"))
  /\ (forall url name,
        lookup environ "MONGO_URL" = Some url ->
        client_fault url = None ->
        lookup environ "DB_NAME" = Some name ->
        database_fault name = None ->
        exists g,
          Process.import_module client_fault database_fault environ = Ok g
          /\ Process.db g = (Process.MotorClient url, name)
          /\ (Process.client g = None
              <-> dict_get environ "OPENAI_API_KEY" "" = ""))
  /\ (forall g,
        Process.import_module client_fault database_fault environ = Ok g ->
        lookup environ "MONGO_URL" <> None
        /\ lookup environ "DB_NAME" <> None).
Proof.
  split; [|split; [|split]].
  - intros U. unfold Process.import_module, getitem. now rewrite U.
  - intros url U C N. unfold Process.import_module, getitem, Process.guard.
    rewrite U. cbn [exc_bind]. rewrite C. cbn [exc_bind]. now rewrite N.
  - intros url name U C N D.
    unfold Process.import_module, getitem, Process.guard.
    rewrite U. cbn [exc_bind]. rewrite C. cbn [exc_bind].
    rewrite N. cbn [exc_bind]. rewrite D. cbn [exc_bind]. eexists.
    split; [reflexivity|]. cbn [Process.db Process.client].
    split; [reflexivity|].
    destruct (dict_get environ "OPENAI_API_KEY" ""); split; easy.
  - intros g H. apply import_module_ok in H as (url & name & U & N & _).
    rewrite U, N. split; discriminate.
Qed.

Lemma import_needs_store_settings_only_witness :
  exists g,
    Process.import_module Process.no_fault Process.no_fault
      Process.sample_environ = Ok g
    /\ Process.db g
       = (Process.MotorClient "mongodb://localhost:27017", "codecraft")
    /\ (Process.client g = None
        <-> dict_get Process.sample_environ "OPENAI_API_KEY" "" = "").
Proof.
  destruct (import_needs_store_settings_only Process.no_fault
              Process.no_fault Process.sample_environ) as (_ & _ & H & _).
  apply (H "mongodb://localhost:27017" "codecraft"); reflexivity.
Defined.

(** X24. The shutdown handler never closes the Mongo client: by then the
    name [client] is bound to the OpenAI client or to [None], so the
    handler closes the OpenAI client when an API key is set and raises an
    [AttributeError] when none is. *)
Theorem shutdown_never_closes_store_client
    (client_fault database_fault : string -> option exn)
    (environ : dict string) (g : Process.Globals) :
  Process.import_module client_fault database_fault environ = Ok g ->
  (forall url,
      Process.shutdown_db_client g
      <> Process.Closes (Process.MotorClient url))
  /\ (dict_get environ "OPENAI_API_KEY" "" = ""
      -> Process.shutdown_db_client g = Process.RaisesAttributeError)
  /\ (dict_get environ "OPENAI_API_KEY" "" <> ""
      -> Process.shutdown_db_client g
         = Process.Closes
             (Process.OpenAIClient (dict_get environ "OPENAI_API_KEY" ""))).
Proof.
  intros H. apply import_module_ok in H as (url & name & _ & _ & _ & _ & _ & C).
  unfold Process.shutdown_db_client. rewrite C.
  destruct (dict_get environ "OPENAI_API_KEY" "") as [|c key].
  - split; [discriminate|]. split; [reflexivity | contradiction].
  - split; [discriminate|]. split; [discriminate | reflexivity].
Qed.

Lemma shutdown_never_closes_store_client_witness :
  exists g,
    Process.import_module Process.no_fault Process.no_fault
      Process.sample_environ = Ok g
    /\ Process.shutdown_db_client g = Process.RaisesAttributeError.
Proof.
  eexists. split; [reflexivity|].
  apply (shutdown_never_closes_store_client Process.no_fault
           Process.no_fault Process.sample_environ _ eq_refl).
  reflexivity.
Defined.

(* ================================================================= *)
(** * A reply without content *)

(** On a backend whose replies all have a content, the second [generate_code]
    is the first. *)
Lemma generate_code_with_ai_with_content env prompt language request_type
      code_input st :
  NullContent.generate_code_with_ai (with_content env) prompt language
    request_type code_input st
  = (NullContent.answer
       (fst (generate_code_with_ai env prompt language request_type
               code_input st)),
     snd (generate_code_with_ai env prompt language request_type
            code_input st)).
Proof.
  pose proof (get_template_code_by_priority prompt language request_type)
    as Hr.
  unfold NullContent.generate_code_with_ai, generate_code_with_ai,
    try_except, bind, lift, ret, raise,
    NullContent.chat_completions_create, chat_completions_create,
    logging_error, with_content.
  cbn [NullContent.client].
  destruct (client env) as [backend|].
  - destruct (system_prompt_for request_type language) as [sp|].
    + destruct (backend _) as [content|e]; cbn [NullContent.parse_content].
      * destruct (parse_ai_response request_type content) as [g|e'];
          cbn [NullContent.answer exc_bind]; [reflexivity|].
        rewrite Hr. reflexivity.
      * rewrite Hr. reflexivity.
    + rewrite Hr. reflexivity.
  - rewrite Hr. reflexivity.
Qed.

Lemma generate_code_with_content env request st :
  NullContent.generate_code (with_content env) request st
  = generate_code env request st.
Proof.
  unfold NullContent.generate_code, generate_code, route,
    NullContent.new_CodeRequest, new_CodeRequest,
    NullContent.new_CodeResponse.
  unfold bind, NullContent.new_uuid, new_uuid, NullContent.now, now,
    NullContent.insert_one, insert_one, ret, raise, logging_error.
  cbn [db log sent draws with_content NullContent.uuid4 NullContent.utcnow
       NullContent.insert_fault].
  match goal with
  | |- context [insert_fault env (db st) ?d] =>
      destruct (insert_fault env (db st) d) as [e|]
  end; [reflexivity|].
  rewrite generate_code_with_ai_with_content.
  match goal with
  | |- context [generate_code_with_ai env ?p ?l ?r ?c ?s] =>
      destruct (generate_code_with_ai_returns env p l r c s)
        as (result & st3 & E & _)
  end.
  rewrite E.
  cbn [fst snd NullContent.answer exc_bind NullContent.answer_code
       NullContent.answer_explanation db log sent draws].
  match goal with
  | |- context [insert_fault env ?s ?d] =>
      destruct (insert_fault env s d) as [e|]
  end; reflexivity.
Qed.

(** [generate_code_with_ai] returns in every case, and it returns no code
    only where the backend answered without content outside debug mode;
    it writes nothing to the store and draws nothing. *)
Lemma null_generate_code_with_ai_returns
      (env : NullContent.Env) prompt language request_type code_input st :
  exists result st',
    NullContent.generate_code_with_ai env prompt language request_type
      code_input st = (Ok result, st')
    /\ db st' = db st /\ draws st' = draws st
    /\ (NullContent.answer_code result = None ->
        request_type <> "debug"
        /\ exists backend rq,
             NullContent.client env = Some backend
             /\ backend rq = NullContent.Completion None).
Proof.
  pose proof (get_template_code_by_priority prompt language request_type)
    as Hr.
  unfold NullContent.generate_code_with_ai, try_except, bind, lift, ret,
    raise, NullContent.chat_completions_create, logging_error.
  destruct (NullContent.client env) as [backend|].
  - destruct (system_prompt_for request_type language) as [sp|].
    + destruct (backend _) as [[text|]|e] eqn:B;
        cbn [NullContent.parse_content].
      * destruct (parse_ai_response request_type text) as [g|e'];
          cbn [NullContent.answer exc_bind].
        -- eexists _, _. split; [reflexivity|]. now repeat split.
        -- rewrite Hr. eexists _, _. split; [reflexivity|]. now repeat split.
      * destruct (String.eqb_spec request_type "debug") as [->|ND].
        -- rewrite Hr. eexists _, _. split; [reflexivity|]. now repeat split.
        -- eexists _, _. split; [reflexivity|].
           split; [reflexivity|]. split; [reflexivity|].
           intros _. split; [exact ND|].
           exists backend. eexists. split; [reflexivity | exact B].
      * rewrite Hr. eexists _, _. split; [reflexivity|]. now repeat split.
    + rewrite Hr. eexists _, _. split; [reflexivity|]. now repeat split.
  - rewrite Hr. eexists _, _. split; [reflexivity|]. now repeat split.
Qed.

(** Where [generate_code] answers 500, either a store write raised, or
    the backend answered without content outside debug mode and the
    response could not be built. *)
Lemma null_generate_code_500 (env : NullContent.Env) request st detail st' :
  NullContent.generate_code env request st = (Http500 detail, st') ->
  (exists stored doc e,
      NullContent.insert_fault env stored doc = Some e
      /\ detail = "Code generation failed: " ++ str_of_exn e)
  \/ (detail
        = "Code generation failed: " ++ NullContent.none_is_not_allowed
      /\ CodeRequestCreate.request_type request <> "debug"
      /\ exists backend rq,
           NullContent.client env = Some backend
           /\ backend rq = NullContent.Completion None).
Proof.
  unfold NullContent.generate_code, route, NullContent.new_CodeRequest,
    NullContent.new_CodeResponse.
  unfold bind, NullContent.new_uuid, NullContent.now, NullContent.insert_one,
    ret, raise, logging_error.
  cbn [db log sent draws].
  match goal with
  | |- context [NullContent.insert_fault env (db st) ?d] =>
      destruct (NullContent.insert_fault env (db st) d) as [e|] eqn:F1
  end.
  - intros H; injection H as <- _. left.
    eexists _, _, e. split; [exact F1 | reflexivity].
  - match goal with
    | |- context [NullContent.generate_code_with_ai env ?p ?l ?r ?c ?s] =>
        destruct (null_generate_code_with_ai_returns env p l r c s)
          as (result & st3 & E & _ & _ & HN)
    end.
    rewrite E. cbn [db log sent draws].
    destruct (NullContent.answer_code result) as [generated|] eqn:A;
      cbn [db log sent draws].
    + match goal with
      | |- context [NullContent.insert_fault env ?s ?d] =>
          destruct (NullContent.insert_fault env s d) as [e|] eqn:F2
      end; [|discriminate].
      intros H; injection H as <- _. left.
      eexists _, _, e. split; [exact F2 | reflexivity].
    + intros H; injection H as <- _. right.
      destruct (HN eq_refl) as (ND & backend & rq & Hc & Hb).
      split; [reflexivity|]. split; [exact ND|].
      exists backend, rq. split; [exact Hc | exact Hb].
Qed.

(** C2.  The generate operation can answer with a server error although
    no store write failed.  When the backend's reply has no content and
    the request type is not debug, line 118 hands the missing content on
    as the code, nothing is caught or logged by [generate_code_with_ai],
    no template takes its place, and the [CodeResponse] of line 287
    cannot be built: [generate_code] answers 500 after the one write it
    tried, that of the request, went through. *)
Theorem null_content_answers_500_with_no_write_failure
    (env : NullContent.Env) (backend : NullContent.Backend)
    (request : CodeRequestCreate.t) (sp : string) (st : State) :
  NullContent.client env = Some backend ->
  system_prompt_for (CodeRequestCreate.request_type request)
    (CodeRequestCreate.language request) = Some sp ->
  CodeRequestCreate.request_type request <> "debug" ->
  let rq :=
    {| model := "gpt-4"; system_content := sp;
       user_content :=
         user_message_for (CodeRequestCreate.prompt request)
           (CodeRequestCreate.language request)
           (CodeRequestCreate.code_input request);
       max_tokens := 2000 |} in
  backend rq = NullContent.Completion None ->
  NullContent.insert_fault env (db st)
    (code_requests (NullContent.code_request_of env request st)) = None ->
  exists st',
    NullContent.generate_code env request st
    = (Http500
         ("Code generation failed: " ++ NullContent.none_is_not_allowed),
       st')
    /\ db st'
       = (db st
          ++ [code_requests (NullContent.code_request_of env request st)])%list
    /\ log st'
       = (log st
          ++ [("Code generation error: "
               ++ NullContent.none_is_not_allowed)%string])%list
    /\ sent st' = (sent st ++ [rq])%list.
Proof.
  intros Hc Hsp ND rq Hb F.
  unfold NullContent.generate_code, route, NullContent.new_CodeRequest,
    NullContent.new_CodeResponse.
  unfold bind, NullContent.new_uuid, NullContent.now, NullContent.insert_one,
    ret, raise, logging_error.
  cbn [db log sent draws].
  unfold NullContent.code_request_of in *. rewrite F.
  unfold NullContent.generate_code_with_ai, try_except.
  rewrite Hc, Hsp.
  unfold bind, ret, NullContent.chat_completions_create, lift.
  fold rq. rewrite Hb. cbn [NullContent.parse_content].
  apply String.eqb_neq in ND. rewrite ND.
  cbn [db log sent draws NullContent.answer_code].
  eexists. split; [reflexivity|]. now repeat split.
Qed.

Lemma null_content_answers_500_with_no_write_failure_witness :
  exists st',
    NullContent.generate_code NullContent.env_without_content sample_request
      empty_state
    = (Http500
         ("Code generation failed: " ++ NullContent.none_is_not_allowed),
       st')
    /\ db st'
       = [code_requests
            (NullContent.code_request_of NullContent.env_without_content
               sample_request empty_state)]
    /\ log st'
       = [("Code generation error: "
           ++ NullContent.none_is_not_allowed)%string]
    /\ length (sent st') = 1.
Proof.
  destruct (null_content_answers_500_with_no_write_failure
              NullContent.env_without_content
              (fun _ => NullContent.Completion None)
              sample_request _ empty_state
              eq_refl eq_refl)
    as (st' & E & Hdb & Hlog & Hsent);
    [discriminate | reflexivity | reflexivity |].
  exists st'. rewrite Hsent. now repeat split.
Defined.

(** What the backend raises is absorbed all the same: the exception is
    logged and the result is that of [get_template_code]; and in debug
    mode a reply without content ends there too, through the [TypeError]
    of line 112. *)
Lemma null_generate_code_with_ai_absorbs
      (env : NullContent.Env) (backend : NullContent.Backend)
      prompt language request_type code_input sp st :
  NullContent.client env = Some backend ->
  system_prompt_for request_type language = Some sp ->
  let rq :=
    {| model := "gpt-4"; system_content := sp;
       user_content := user_message_for prompt language code_input;
       max_tokens := 2000 |} in
  let fallback e :=
    (NullContent.answer (get_template_code prompt language request_type),
     {| db := db st;
        log := (log st
                ++ [("AI generation error: " ++ str_of_exn e)%string])%list;
        sent := (sent st ++ [rq])%list;
        draws := draws st |}) in
  (forall e,
      backend rq = NullContent.Failure e ->
      NullContent.generate_code_with_ai env prompt language request_type
        code_input st = fallback e)
  /\ (request_type = "debug" ->
      backend rq = NullContent.Completion None ->
      NullContent.generate_code_with_ai env prompt language request_type
        code_input st
      = fallback (TypeError "argument of type 'NoneType' is not iterable")).
Proof.
  intros Hc Hsp rq fallback. subst fallback. cbv beta.
  pose proof (get_template_code_by_priority prompt language request_type)
    as Hr.
  split.
  - intros e Hb. unfold NullContent.generate_code_with_ai, try_except.
    rewrite Hc, Hsp.
    unfold bind, ret, NullContent.chat_completions_create, lift,
      logging_error.
    fold rq. rewrite Hb. cbn [db log sent draws]. now rewrite Hr.
  - intros -> Hb. unfold NullContent.generate_code_with_ai, try_except.
    rewrite Hc, Hsp.
    unfold bind, ret, NullContent.chat_completions_create, lift,
      logging_error.
    fold rq. rewrite Hb. cbn [NullContent.parse_content String.eqb Ascii.eqb
                               Bool.eqb db log sent draws].
    now rewrite Hr.
Qed.

(** At the route: when the call to the backend raises and the store takes
    every write, [generate_code] answers 200 with the code and the
    explanation of [get_template_code]. *)
Lemma null_generate_code_serves_fallback
      (env : NullContent.Env) (backend : NullContent.Backend)
      (request : CodeRequestCreate.t) (sp : string) (e : exn) (st : State) :
  NullContent.client env = Some backend ->
  system_prompt_for (CodeRequestCreate.request_type request)
    (CodeRequestCreate.language request) = Some sp ->
  backend
    {| model := "gpt-4"; system_content := sp;
       user_content :=
         user_message_for (CodeRequestCreate.prompt request)
           (CodeRequestCreate.language request)
           (CodeRequestCreate.code_input request);
       max_tokens := 2000 |} = NullContent.Failure e ->
  (forall stored doc, NullContent.insert_fault env stored doc = None) ->
  exists r response st',
    get_template_code (CodeRequestCreate.prompt request)
      (CodeRequestCreate.language request)
      (CodeRequestCreate.request_type request) = Ok r
    /\ NullContent.generate_code env request st = (Http200 response, st')
    /\ CodeResponse.generated_code response = code r
    /\ CodeResponse.explanation response = explanation r
    /\ log st'
       = (log st
          ++ [("AI generation error: " ++ str_of_exn e)%string])%list.
Proof.
  intros Hc Hsp Hb F.
  destruct (null_generate_code_with_ai_absorbs env backend
              (CodeRequestCreate.prompt request)
              (CodeRequestCreate.language request)
              (CodeRequestCreate.request_type request)
              (CodeRequestCreate.code_input request) sp
              {| db := (db st
                        ++ [code_requests
                              (NullContent.code_request_of env request st)])%list;
                 log := log st; sent := sent st;
                 draws := S (S (draws st)) |} Hc Hsp) as (A & _).
  specialize (A e Hb). cbv zeta in A.
  rewrite get_template_code_by_priority in *.
  eexists _, _, _. split; [reflexivity|].
  unfold NullContent.generate_code, route, NullContent.new_CodeRequest,
    NullContent.new_CodeResponse.
  unfold bind, NullContent.new_uuid, NullContent.now, NullContent.insert_one,
    ret, raise, logging_error.
  cbn [db log sent draws]. rewrite F.
  unfold NullContent.code_request_of in A. rewrite A.
  cbn [NullContent.answer exc_bind NullContent.answer_code
       NullContent.answer_explanation db log sent draws].
  rewrite F. cbn [db log sent draws].
  split; [reflexivity|]. now repeat split.
Qed.
